(** * Gatherings: entity cache, translation overlay and draft workflow

    A shallow embedding of [modules/gatherings/gatherings.py].  Handlers
    and entity methods are functions in a state-and-exception monad over
    the collaborators the module talks to: the datastore, memcache, the
    news feed and the i18n progress updater. *)

From Stdlib Require Import ZArith NArith Ascii.
From stdpp Require Import base option list sorting strings gmap.

Local Open Scope Z_scope.
Local Open Scope string_scope.

(** ** Python values and exceptions *)

Inductive Exc :=
| NameError (name : string)
| KeyError (k : string)
| AttributeError (attr : string)
| BadKeyError
| NotSavedError
| BadValueError (prop : string)
| UnicodeEncodeError.

(** Values that occur in the dictionary produced by
    [transforms.json_to_dict]. *)
Inductive PyVal :=
| VNone
| VBool (b : bool)
| VStr (s : string)
| VDatetime (t : Z).

(** Python truthiness ([not v] is [negb (truthy v)]). *)
Definition truthy (v : PyVal) : bool :=
  match v with
  | VNone => false
  | VBool b => b
  | VStr s => negb (bool_decide (s = ""))
  | VDatetime _ => true
  end.

(** [d.get(k)]: [None] when the key is absent. *)
Definition dict_get (d : gmap string PyVal) (k : string) : PyVal :=
  default VNone (d !! k).

(** Truthiness of a [locale] argument, which is [None] or a [str]. *)
Definition locale_truthy (locale : option string) : bool :=
  match locale with
  | None => false
  | Some l => negb (bool_decide (l = ""))
  end.

(** ** Data model *)

(** [GatheringEntity(entities.BaseEntity)].  [key] is the numeric id of
    the datastore key, absent until the entity is first put.  Times are
    seconds since the epoch, UTC. *)
Record GatheringEntity := mkGathering {
  key : option Z;
  title : string;
  start_time : Z;
  end_time : Z;
  html : string;
  is_draft : bool;
}.

Definition set_key (k : option Z) (e : GatheringEntity) : GatheringEntity :=
  mkGathering k (title e) (start_time e) (end_time e) (html e) (is_draft e).
Definition set_title (v : string) (e : GatheringEntity) : GatheringEntity :=
  mkGathering (key e) v (start_time e) (end_time e) (html e) (is_draft e).
Definition set_start_time (v : Z) (e : GatheringEntity) : GatheringEntity :=
  mkGathering (key e) (title e) v (end_time e) (html e) (is_draft e).
Definition set_end_time (v : Z) (e : GatheringEntity) : GatheringEntity :=
  mkGathering (key e) (title e) (start_time e) v (html e) (is_draft e).
Definition set_html (v : string) (e : GatheringEntity) : GatheringEntity :=
  mkGathering (key e) (title e) (start_time e) (end_time e) v (is_draft e).
Definition set_is_draft (v : bool) (e : GatheringEntity) : GatheringEntity :=
  mkGathering (key e) (title e) (start_time e) (end_time e) (html e) v.

(** [resource.Key(type, id, course)]; [str(key)] is injective in the two
    components, so the news feed is keyed by the structured value. *)
Record ResourceKey := mkResourceKey {
  rk_type : string;
  rk_id : Z;
}.

Global Instance ResourceKey_eq_dec : EqDecision ResourceKey.
Proof. solve_decision. Defined.

(** [news.NewsItem(resource_key, url)]. *)
Record NewsItem := mkNewsItem {
  resource_key : ResourceKey;
  url : string;
}.

(** Calls made to the collaborators, in program order. *)
Inductive Event :=
| EvNewsAdd (k : ResourceKey)
| EvNewsRemove (k : ResourceKey)
| EvDbPut (id : Z)
| EvDbDelete (id : Z)
| EvMemcacheSet (k : string)
| EvMemcacheDelete (k : string)
| EvI18nUpdate (k : ResourceKey).

(** The world a request runs against.  [datastore] lists the stored
    gatherings in the order a full scan yields them; [trace] is the log of
    collaborator calls, oldest first. *)
Record State := mkState {
  datastore : list GatheringEntity;
  next_id : Z;
  memcache : gmap string (list GatheringEntity);
  news : list NewsItem;
  trace : list Event;
}.

(** Text as the translation service leaves it in a dto: [None], a byte
    [str], or [unicode] text given by its code points. *)
Inductive PyText :=
| TNone
| TStr (s : string)
| TUnicode (codepoints : list N).

(** What a handler reads from its [app_context] and request environment.
    [translate_dto] is the effect of [i18n_dashboard.translate_dto_list]
    on one [{'title', 'html'}] dictionary under the request's locale: the
    two values the dictionary holds afterwards (a field it does not
    translate comes back as the text it was given). *)
Record AppContext := mkAppContext {
  current_locale : string;
  default_locale : string;
  is_course_admin : bool;
  is_translatable_course : bool;
  now_as_datetime : Z;
  translate_dto : ResourceKey → string * string → PyText * PyText;
}.

(** ** State-and-exception monad *)

Definition M (A : Type) : Type := State → (Exc + A) * State.

Definition ret {A} (a : A) : M A := λ s, (inr a, s).
Definition raise {A} (e : Exc) : M A := λ s, (inl e, s).
Definition bind {A B} (m : M A) (k : A → M B) : M B :=
  λ s, match m s with
       | (inl e, s') => (inl e, s')
       | (inr a, s') => k a s'
       end.

Notation "x <~ m ;; k" := (bind m (λ x, k))
  (at level 100, m at next level, right associativity).
Notation "m ;;; k" := (bind m (λ _, k))
  (at level 100, right associativity).

Definition log (ev : Event) : M unit :=
  λ s, (inr (), mkState (datastore s) (next_id s) (memcache s) (news s)
                        (trace s ++ [ev])).

Fixpoint mapM {A B} (f : A → M B) (l : list A) : M (list B) :=
  match l with
  | [] => ret []
  | x :: l' => y <~ f x ;; ys <~ mapM f l' ;; ret (y :: ys)
  end.

(** Whether unicode text is plain ASCII. *)
Definition is_ascii_text (codepoints : list N) : bool :=
  forallb (λ c, (c <? 128)%N) codepoints.

(** Python 2 [str(v)] under the default ascii codec: [None] prints as
    ['None'], a byte string is itself, unicode text is encoded and raises
    [UnicodeEncodeError] at the first non-ASCII code point. *)
Definition py_str (v : PyText) : M string :=
  match v with
  | TNone => ret "None"
  | TStr s => ret s
  | TUnicode codepoints =>
      if is_ascii_text codepoints
      then ret (String.string_of_list_ascii (ascii_of_N <$> codepoints))
      else raise UnicodeEncodeError
  end.

(** ** Collaborators *)

(** Modelled from the spec: [models.MemcacheManager], a keyed store with
    [get] returning the absence marker for a missing key, [set]
    overwriting and [delete] dropping one key. *)
Module MemcacheManager.
Definition get (k : string) : M (option (list GatheringEntity)) :=
  λ s, (inr (memcache s !! k), s).
Definition set (k : string) (v : list GatheringEntity) : M unit :=
  log (EvMemcacheSet k) ;;;
  λ s, (inr (), mkState (datastore s) (next_id s) (<[k:=v]> (memcache s))
                        (news s) (trace s)).
Definition delete (k : string) : M unit :=
  log (EvMemcacheDelete k) ;;;
  λ s, (inr (), mkState (datastore s) (next_id s) (base.delete k (memcache s))
                        (news s) (trace s)).
End MemcacheManager.

(** Modelled from the spec: [news.CourseNewsDao], the notification sink
    with [addItem] and an idempotent [removeItem]. *)
Module CourseNewsDao.
Definition add_news_item (item : NewsItem) : M unit :=
  log (EvNewsAdd (resource_key item)) ;;;
  λ s, (inr (), mkState (datastore s) (next_id s) (memcache s)
                        (news s ++ [item]) (trace s)).
Definition remove_news_item (k : ResourceKey) : M unit :=
  log (EvNewsRemove k) ;;;
  λ s, (inr (), mkState (datastore s) (next_id s) (memcache s)
                        (filter (λ it, resource_key it ≠ k) (news s))
                        (trace s)).
End CourseNewsDao.

(** Modelled from the spec: the entity store behind [entities.BaseEntity]
    ([get], [put], [delete], full scan). *)
Module db.
Definition has_id (id : Z) (e : GatheringEntity) : bool :=
  bool_decide (key e = Some id).

(** A key as it arrives in a request: malformed keys make
    [db.Model.get] raise [BadKeyError]. *)
Inductive ReqKey := KBad | KId (id : Z).

Definition get (k : ReqKey) : M (option GatheringEntity) :=
  match k with
  | KBad => raise BadKeyError
  | KId id => λ s, (inr (List.find (has_id id) (datastore s)), s)
  end.

Definition replace (id : Z) (e : GatheringEntity)
    (rows : list GatheringEntity) : list GatheringEntity :=
  if existsb (has_id id) rows
  then map (λ r, if has_id id r then e else r) rows
  else rows ++ [e].

(** [db.Model.put]: allocates an id on first put, overwrites the row on
    later ones; returns the entity with its key. *)
Definition put (e : GatheringEntity) : M GatheringEntity :=
  match key e with
  | Some id =>
      log (EvDbPut id) ;;;
      λ s, (inr e, mkState (replace id e (datastore s)) (next_id s)
                           (memcache s) (news s) (trace s))
  | None =>
      id <~ (λ s, (inr (next_id s), s)) ;;
      log (EvDbPut id) ;;;
      λ s, (inr (set_key (Some id) e),
            mkState (datastore s ++ [set_key (Some id) e]) (next_id s + 1)
                    (memcache s) (news s) (trace s))
  end.

(** [db.Model.delete]: needs a saved entity. *)
Definition delete (e : GatheringEntity) : M unit :=
  match key e with
  | None => raise NotSavedError
  | Some id =>
      log (EvDbDelete id) ;;;
      λ s, (inr (), mkState (filter (λ r, key r ≠ Some id) (datastore s))
                            (next_id s) (memcache s) (news s) (trace s))
  end.

(** [list(common_utils.iter_all(GatheringEntity.all()))]. *)
Definition iter_all : M (list GatheringEntity) :=
  λ s, (inr (datastore s), s).
End db.

(** ** Rights *)

Module GatheringsRights.
Definition can_view (handler : AppContext) : bool := true.
Definition can_edit (handler : AppContext) : bool := is_course_admin handler.
Definition can_delete (handler : AppContext) : bool := can_edit handler.
Definition can_add (handler : AppContext) : bool := can_edit handler.

(** The loop of [apply_rights], appending the items that pass. *)
Fixpoint allowed_loop (items allowed : list GatheringEntity)
    : list GatheringEntity :=
  match items with
  | [] => allowed
  | item :: rest =>
      if negb (is_draft item)
      then allowed_loop rest (allowed ++ [item])
      else allowed_loop rest allowed
  end.

Definition apply_rights (handler : AppContext) (items : list GatheringEntity)
    : list GatheringEntity :=
  if can_edit handler then items else allowed_loop items [].
End GatheringsRights.

(** ** Resource keys *)

Module ResourceHandlerGathering.
Definition TYPE : string := "gathering".
End ResourceHandlerGathering.

Module TranslatableResourceGathering.
(** [resource.Key(TYPE, gathering.key().id(), course)]; [key()] raises on
    an entity that was never saved. *)
Definition key_for_entity (gathering : GatheringEntity) : M ResourceKey :=
  match key gathering with
  | None => raise NotSavedError
  | Some id => ret (mkResourceKey ResourceHandlerGathering.TYPE id)
  end.
End TranslatableResourceGathering.

(** ** Name resolution inside [make] *)

(** An object a name can be bound to, as far as [make] tells them apart. *)
Inductive Obj :=
| OEntity (e : GatheringEntity)
| OOther.

(** The names the module binds at top level (imports, constants, classes
    and functions).  No builtin is called [entitity] either. *)
Definition module_globals : list string :=
  [ "cgi"; "collections"; "datetime"; "os"; "urllib"; "jinja2";
    "appengine_config"; "crypto"; "tags"; "common_utils"; "schema_fields";
    "resource"; "utc"; "sites"; "utils"; "resources_display"; "courses";
    "custom_modules"; "entities"; "models"; "roles"; "KeyProperty";
    "transforms"; "messages"; "dashboard"; "i18n_dashboard"; "news";
    "oeditor"; "db"; "__author__"; "MODULE_NAME"; "MODULE_TITLE";
    "TEMPLATE_DIR"; "GatheringsRights"; "GatheringsHandlerMixin";
    "GatheringsStudentHandler"; "GatheringsDashboardHandler";
    "GatheringsItemRESTHandler"; "GatheringEntity"; "GatheringsUsersEntity";
    "TranslatableResourceGathering"; "ResourceHandlerGathering";
    "custom_module"; "on_module_enabled"; "register_module" ].

(** Local scope first, then the module's globals. *)
Definition load_name (locals : list (string * Obj)) (name : string) : M Obj :=
  match List.find (λ b, bool_decide (fst b = name)) locals with
  | Some (_, o) => ret o
  | None =>
      if bool_decide (name ∈ module_globals) then ret OOther
      else raise (NameError name)
  end.

Definition getattr_start_time (o : Obj) : M Z :=
  match o with
  | OEntity e => ret (start_time e)
  | OOther => raise (AttributeError "start_time")
  end.

(** [datetime.timedelta(minutes=n)] in seconds. *)
Definition timedelta_minutes (n : Z) : Z := n * 60.

(** ** The entity class *)

Module GatheringEntity.

Definition _MEMCACHE_KEY : string := "gatherings".

Definition _cache_key (locale : option string) : string :=
  if negb (locale_truthy locale) then _MEMCACHE_KEY
  else (_MEMCACHE_KEY +:+ ":") +:+ default "" locale.

Definition purge_cache (locale : option string) : M unit :=
  MemcacheManager.delete (_cache_key locale).

(** [i18n_dashboard.translate_dto_list]: rewrites each fake dto in place,
    paired with its key. *)
Definition translate_dto_list (ctx : AppContext)
    (fake_items : list (string * string)) (key_list : list ResourceKey)
    : list (PyText * PyText) :=
  zip_with (λ dto k, translate_dto ctx k dto) fake_items key_list.

(** The body of the closing loop: [item.title = str(...)], then
    [item.html = str(...)]. *)
Definition assign_translation (pair : GatheringEntity * (PyText * PyText))
    : M GatheringEntity :=
  let item := fst pair in
  let fake_item := snd pair in
  title_ <~ py_str (fst fake_item) ;;
  html_ <~ py_str (snd fake_item) ;;
  ret (set_html html_ (set_title title_ item)).

Definition _translate_content (ctx : AppContext)
    (items : list GatheringEntity) : M (list GatheringEntity) :=
  key_list <~ mapM TranslatableResourceGathering.key_for_entity items ;;
  let fake_items := map (λ item, (title item, html item)) items in
  let fake_items := translate_dto_list ctx fake_items key_list in
  mapM assign_translation (zip items fake_items).

(** [items.sort(key=lambda item: item.start_time, reverse=True)]: a
    stable sort, so an item goes in front of the first one that does not
    start strictly later. *)
Fixpoint insert_desc (x : GatheringEntity) (l : list GatheringEntity)
    : list GatheringEntity :=
  match l with
  | [] => [x]
  | y :: l' =>
      if (start_time x <? start_time y)%Z then y :: insert_desc x l'
      else x :: y :: l'
  end.

Definition sort_desc (l : list GatheringEntity) : list GatheringEntity :=
  foldr insert_desc [] l.

Definition get_gatherings (ctx : AppContext) (locale : option string)
    : M (list GatheringEntity) :=
  let memcache_key := _cache_key locale in
  cached <~ MemcacheManager.get memcache_key ;;
  match cached with
  | Some items => ret items
  | None =>
      items <~ db.iter_all ;;
      let items := sort_desc items in
      items <~ (if locale_truthy locale then _translate_content ctx items
                else ret items) ;;
      MemcacheManager.set memcache_key items ;;;
      ret items
  end.

(** [cls()]: a fresh entity; every property read below is assigned
    first. *)
Definition blank : GatheringEntity := mkGathering None "" 0 0 "" false.

Definition make (ctx : AppContext) (title_ html_ : string) (is_draft_ : bool)
    : M GatheringEntity :=
  let entity := blank in
  let entity := set_title title_ entity in
  let entity := set_start_time (now_as_datetime ctx) entity in
  let locals := [ ("cls", OOther); ("title", OOther); ("html", OOther);
                  ("is_draft", OOther); ("entity", OEntity entity) ] in
  o <~ load_name locals "entitity" ;;
  t <~ getattr_start_time o ;;
  let entity := set_end_time (t + timedelta_minutes 30) entity in
  let entity := set_html html_ entity in
  let entity := set_is_draft is_draft_ entity in
  ret entity.

(** Do the normal put() and also invalidate memcache.  Returns the entity
    as it is after the call, carrying its key. *)
Definition put (ctx : AppContext) (self : GatheringEntity) : M GatheringEntity :=
  self <~ db.put self ;;
  purge_cache None ;;;
  (if is_translatable_course ctx
   then k <~ TranslatableResourceGathering.key_for_entity self ;;
        log (EvI18nUpdate k)
   else ret ()) ;;;
  ret self.

(** Do the normal delete() and invalidate memcache. *)
Definition delete (self : GatheringEntity) : M unit :=
  k <~ TranslatableResourceGathering.key_for_entity self ;;
  CourseNewsDao.remove_news_item k ;;;
  db.delete self ;;;
  purge_cache None.

Definition get (k : db.ReqKey) : M (option GatheringEntity) := db.get k.

End GatheringEntity.

(** [TranslatableResourceGathering.notify_translations_changed]; the
    argument is [resource_bundle_key.locale]. *)
Definition notify_translations_changed (bundle_locale : string) : M unit :=
  GatheringEntity.purge_cache (Some bundle_locale).

(** ** Requests and responses *)

(** The payload dictionary handed to [transforms.send_json_response]. *)
Inductive Payload :=
| PNone
| PKey (k : db.ReqKey)
| PEntity (e : GatheringEntity)
| PSetDraft (raw : string)
| PIsDraft (b : bool).

(** Response messages; [MsgDraftStatus b] is ['Draft status set to %s.']
    filled with [resources_display.DRAFT_TEXT] or [PUBLISHED_TEXT]. *)
Inductive Message :=
| Msg (text : string)
| MsgDraftStatus (set_draft : bool).

Inductive Response :=
| JsonResponse (status : Z) (message : Message) (payload : Payload)
| XsrfFailed
| HttpError (code : Z)
| RedirectList
| RedirectEdit (k : option Z).

(** [try: ... except db.BadKeyError: entity = None]. *)
Definition except_BadKeyError (m : M (option GatheringEntity))
    : M (option GatheringEntity) :=
  λ s, match m s with
       | (inl BadKeyError, s') => (inr None, s')
       | r => r
       end.

(** [del d[k]]. *)
Definition dict_del (d : gmap string PyVal) (k : string)
    : M (gmap string PyVal) :=
  match d !! k with
  | None => raise (KeyError k)
  | Some _ => ret (base.delete k d)
  end.

(** One [setattr(entity, name, value)] on a datastore property; a value
    of the wrong type is rejected by the property's validation. *)
Definition assign_property (name : string) (v : PyVal) (e : GatheringEntity)
    : M GatheringEntity :=
  if bool_decide (name = "title") then
    match v with VStr s => ret (set_title s e) | _ => raise (BadValueError name) end
  else if bool_decide (name = "html") then
    match v with VStr s => ret (set_html s e) | _ => raise (BadValueError name) end
  else if bool_decide (name = "start_time") then
    match v with VDatetime t => ret (set_start_time t e) | _ => raise (BadValueError name) end
  else if bool_decide (name = "end_time") then
    match v with VDatetime t => ret (set_end_time t e) | _ => raise (BadValueError name) end
  else if bool_decide (name = "is_draft") then
    match v with VBool b => ret (set_is_draft b e) | _ => raise (BadValueError name) end
  else ret e.

Definition update_property (d : gmap string PyVal) (name : string)
    (e : GatheringEntity) : M GatheringEntity :=
  match d !! name with
  | None => ret e
  | Some v => assign_property name v e
  end.

(** Modelled from the spec: [transforms.dict_to_entity], the partial field
    update of [save]: every property present in the dictionary is
    assigned, the others keep their value. *)
Definition dict_to_entity (entity : GatheringEntity) (d : gmap string PyVal)
    : M GatheringEntity :=
  entity <~ update_property d "title" entity ;;
  entity <~ update_property d "html" entity ;;
  entity <~ update_property d "start_time" entity ;;
  entity <~ update_property d "end_time" entity ;;
  update_property d "is_draft" entity.

(** ** Handlers *)

Module GatheringsStudentHandler.

Definition URL : string := "/gatherings".

(** [URL.lstrip('/')]. *)
Definition URL_lstrip : string := "gatherings".

(** Shows a list of gatherings: the items handed to the template. *)
Definition get_list (self : AppContext) : M (list GatheringEntity) :=
  let locale := Some (current_locale self) in
  let locale :=
    if bool_decide (current_locale self = default_locale self) then None
    else locale in
  items <~ GatheringEntity.get_gatherings self locale ;;
  let items := GatheringsRights.apply_rights self items in
  ret items.

End GatheringsStudentHandler.

Module GatheringsDashboardHandler.

Definition DEFAULT_TITLE_TEXT : string := "New Gathering".

Definition get_edit_gatherings (self : AppContext) : M (list GatheringEntity) :=
  items <~ GatheringEntity.get_gatherings self None ;;
  let items := GatheringsRights.apply_rights self items in
  ret items.

Definition post_delete_gathering (self : AppContext) (k : db.ReqKey)
    : M Response :=
  if negb (GatheringsRights.can_delete self) then ret (HttpError 401) else
  entity <~ GatheringEntity.get k ;;
  (match entity with
   | Some entity => GatheringEntity.delete entity
   | None => ret ()
   end) ;;;
  ret RedirectList.

Definition post_add_gathering (self : AppContext) : M Response :=
  if negb (GatheringsRights.can_add self) then ret (HttpError 401) else
  entity <~ GatheringEntity.make self DEFAULT_TITLE_TEXT "" true ;;
  entity <~ GatheringEntity.put self entity ;;
  ret (RedirectEdit (key entity)).

End GatheringsDashboardHandler.

Module GatheringsItemRESTHandler.

(** The request of the REST PUT verb: the key, whether the XSRF token
    checks out, and the payload after [transforms.json_to_dict]. *)
Record PutRequest := mkPutRequest {
  put_key : db.ReqKey;
  put_xsrf_ok : bool;
  put_update_dict : gmap string PyVal;
}.

(** [news.NewsItem(str(key_for_entity(entity)), URL.lstrip('/'))], the
    item both write paths build. *)
Definition news_item_for (entity : GatheringEntity) : M NewsItem :=
  k <~ TranslatableResourceGathering.key_for_entity entity ;;
  ret (mkNewsItem k GatheringsStudentHandler.URL_lstrip).

(** Handles REST GET verb and returns an object as JSON payload. *)
Definition get (self : AppContext) (k : db.ReqKey) : M Response :=
  entity <~ except_BadKeyError (GatheringEntity.get k) ;;
  match entity with
  | None => ret (JsonResponse 404 (Msg "Object not found.") (PKey k))
  | Some entity =>
      let viewable := GatheringsRights.apply_rights self [entity] in
      match viewable with
      | [] => ret (JsonResponse 401 (Msg "Access denied.") (PKey k))
      | entity :: _ => ret (JsonResponse 200 (Msg "Success.") (PEntity entity))
      end
  end.

(** Handles REST PUT verb with JSON payload. *)
Definition put (self : AppContext) (request : PutRequest) : M Response :=
  let k := put_key request in
  if negb (put_xsrf_ok request) then ret XsrfFailed else
  if negb (GatheringsRights.can_edit self)
  then ret (JsonResponse 401 (Msg "Access denied.") (PKey k)) else
  entity <~ GatheringEntity.get k ;;
  match entity with
  | None => ret (JsonResponse 404 (Msg "Object not found.") (PKey k))
  | Some entity =>
      let update_dict := put_update_dict request in
      (if is_draft entity && negb (truthy (dict_get update_dict "set_draft"))
       then item <~ news_item_for entity ;; CourseNewsDao.add_news_item item
       else ret ()) ;;;
      update_dict <~ dict_del update_dict "key" ;;
      entity <~ dict_to_entity entity update_dict ;;
      GatheringEntity.put self entity ;;;
      ret (JsonResponse 200 (Msg "Saved.") PNone)
  end.

(** Deletes an gathering. *)
Definition delete (self : AppContext) (k : db.ReqKey) (xsrf_ok : bool)
    : M Response :=
  if negb xsrf_ok then ret XsrfFailed else
  if negb (GatheringsRights.can_delete self) then ret (HttpError 401) else
  entity <~ GatheringEntity.get k ;;
  match entity with
  | None => ret (JsonResponse 404 (Msg "Object not found.") (PKey k))
  | Some entity =>
      GatheringEntity.delete entity ;;;
      ret (JsonResponse 200 (Msg "Deleted.") PNone)
  end.

(** Sets the draft status of a course component. *)
Definition post_set_draft_status (handler : AppContext) (k : db.ReqKey)
    (set_draft : string) : M Response :=
  if negb (GatheringsRights.can_edit handler)
  then ret (JsonResponse 401 (Msg "Access denied.") (PKey k)) else
  entity <~ GatheringEntity.get k ;;
  match entity with
  | None => ret (JsonResponse 404 (Msg "Object not found.") (PKey k))
  | Some entity =>
      let parsed :=
        if bool_decide (set_draft = "1") then Some true
        else if bool_decide (set_draft = "0") then Some false
        else None in
      match parsed with
      | None =>
          ret (JsonResponse 401
                 (Msg "Invalid set_draft value, expected 0 or 1.")
                 (PSetDraft set_draft))
      | Some set_draft =>
          (if is_draft entity && negb set_draft
           then item <~ news_item_for entity ;; CourseNewsDao.add_news_item item
           else ret ()) ;;;
          let entity := set_is_draft set_draft entity in
          GatheringEntity.put handler entity ;;;
          ret (JsonResponse 200 (MsgDraftStatus set_draft) (PIsDraft set_draft))
      end
  end.

End GatheringsItemRESTHandler.

(** ** Specification vocabulary *)

(** Descending by [start_time]. *)
Definition later_first (a b : GatheringEntity) : Prop :=
  (start_time b ≤ start_time a)%Z.

Definition sorted_desc (l : list GatheringEntity) : Prop :=
  Sorted later_first l.

(** Every stored row carries a key. *)
Definition store_saved (s : State) : Prop :=
  Forall (λ e, is_Some (key e)) (datastore s).

(** What memcache may hold: the default partition, when present, is the
    sorted scan of the current store, and every partition is sorted. *)
Definition cache_coherent (s : State) : Prop :=
  (∀ v, memcache s !! GatheringEntity._MEMCACHE_KEY = Some v →
        v = GatheringEntity.sort_desc (datastore s)) ∧
  (∀ k v, memcache s !! k = Some v → sorted_desc v).

(** The fields the translation overlay has no business with. *)
Definition same_frame (a b : GatheringEntity) : Prop :=
  key a = key b ∧ start_time a = start_time b ∧
  end_time a = end_time b ∧ is_draft a = is_draft b.

(** The byte string [str(v)] gives, when it gives one. *)
Definition str_result (v : PyText) : option string :=
  match v with
  | TNone => Some "None"
  | TStr s => Some s
  | TUnicode codepoints =>
      if is_ascii_text codepoints
      then Some (String.string_of_list_ascii (ascii_of_N <$> codepoints))
      else None
  end.

(** An item with its title and body replaced by their translations, when
    both can be turned into byte strings. *)
Definition overlay (ctx : AppContext) (id : Z) (item : GatheringEntity)
    : option GatheringEntity :=
  let dto := translate_dto ctx (mkResourceKey ResourceHandlerGathering.TYPE id)
                           (title item, html item) in
  match str_result (fst dto), str_result (snd dto) with
  | Some title_, Some html_ => Some (set_html html_ (set_title title_ item))
  | _, _ => None
  end.

(** What the overlay makes of one saved item, keyed by its id. *)
Definition translated (ctx : AppContext) (item : GatheringEntity)
    : option GatheringEntity :=
  match key item with
  | Some id => overlay ctx id item
  | None => None
  end.

(** The overlay of a whole list: there is one when every item has
    one. *)
Fixpoint translated_list (ctx : AppContext) (items : list GatheringEntity)
    : option (list GatheringEntity) :=
  match items with
  | [] => Some []
  | item :: rest =>
      match translated ctx item, translated_list ctx rest with
      | Some item', Some rest' => Some (item' :: rest')
      | _, _ => None
      end
  end.

(** What a listing answers from a list the overlay was run over. *)
Definition overlay_outcome (ctx : AppContext) (items : list GatheringEntity)
    : Exc + list GatheringEntity :=
  match translated_list ctx items with
  | Some items' => inr items'
  | None => inl UnicodeEncodeError
  end.

(** The world after a cache miss stored [v] under [k]. *)
Definition cache_filled (k : string) (v : list GatheringEntity) (s : State)
    : State :=
  mkState (datastore s) (next_id s) (<[k:=v]> (memcache s)) (news s)
          (trace s ++ [EvMemcacheSet k]).

(** What [GatheringEntity.put] tells the i18n progress updater. *)
Definition i18n_events (ctx : AppContext) (id : Z) : list Event :=
  if is_translatable_course ctx
  then [EvI18nUpdate (mkResourceKey ResourceHandlerGathering.TYPE id)]
  else [].

(** The worlds the entity class can bring about from a cold cache over
    saved rows: its own writes, listings and purges. *)
Inductive reachable : State → Prop :=
| reach_cold rows n nws tr :
    Forall (λ e, is_Some (key e)) rows →
    reachable (mkState rows n ∅ nws tr)
| reach_put ctx e s :
    reachable s → reachable (snd (GatheringEntity.put ctx e s))
| reach_delete e s :
    reachable s → reachable (snd (GatheringEntity.delete e s))
| reach_list ctx locale s :
    reachable s → reachable (snd (GatheringEntity.get_gatherings ctx locale s))
| reach_purge locale s :
    reachable s → reachable (snd (GatheringEntity.purge_cache locale s)).

(** ** Sample data *)

(** Unicode text with the code points of an ASCII string. *)
Definition unicode_of (s : string) : PyText :=
  TUnicode (N_of_ascii <$> String.list_ascii_of_string s).

Definition sample_translate (k : ResourceKey) (dto : string * string)
    : PyText * PyText :=
  (unicode_of ("[de] " +:+ fst dto), unicode_of ("[de] " +:+ snd dto)).

(** A translation with an umlaut in every title (code point 252). *)
Definition umlaut_translate (k : ResourceKey) (dto : string * string)
    : PyText * PyText :=
  (TUnicode [252%N; 98%N; 101%N; 114%N], unicode_of (snd dto)).

Definition editor_ctx : AppContext :=
  mkAppContext "en_US" "en_US" true true 1000 sample_translate.
Definition student_ctx : AppContext :=
  mkAppContext "en_US" "en_US" false true 1000 sample_translate.
Definition student_de_ctx : AppContext :=
  mkAppContext "de" "en_US" false true 1000 sample_translate.
Definition student_umlaut_ctx : AppContext :=
  mkAppContext "de" "en_US" false true 1000 umlaut_translate.

Definition g1 : GatheringEntity :=
  mkGathering (Some 1) "Kickoff" 300 2100 "<p>kickoff</p>" true.
Definition g2 : GatheringEntity :=
  mkGathering (Some 2) "Review" 200 2000 "<p>review</p>" false.
Definition g3 : GatheringEntity :=
  mkGathering (Some 3) "Retro" 100 1900 "<p>retro</p>" false.

(** The three as [sample_translate] renders them. *)
Definition g1_de : GatheringEntity :=
  mkGathering (Some 1) "[de] Kickoff" 300 2100 "[de] <p>kickoff</p>" true.
Definition g2_de : GatheringEntity :=
  mkGathering (Some 2) "[de] Review" 200 2000 "[de] <p>review</p>" false.
Definition g3_de : GatheringEntity :=
  mkGathering (Some 3) "[de] Retro" 100 1900 "[de] <p>retro</p>" false.

(** Three rows scanned out of start-time order, nothing cached. *)
Definition cold_state : State := mkState [g3; g1; g2] 4 ∅ [] [].

(** The same store with a German partition cached earlier. *)
Definition warm_de_state : State :=
  mkState [g3; g1; g2] 4
          {[ "gatherings:de" := [g2_de; g3_de] ]}
          [] [].

(** An editor saves the draft gathering 1 with a new title and keeps it a
    draft: the dictionary [json_to_dict] builds from the editor's form. *)
Definition keep_draft_dict : gmap string PyVal :=
  <["key" := VStr "1"]>
  (<["title" := VStr "Kickoff (moved)"]>
  (<["html" := VStr "<p>kickoff</p>"]>
  (<["start_time" := VDatetime 400]>
  (<["end_time" := VDatetime 2200]>
  (<["is_draft" := VBool true]> ∅))))).

Definition keep_draft_request : GatheringsItemRESTHandler.PutRequest :=
  GatheringsItemRESTHandler.mkPutRequest (db.KId 1) true keep_draft_dict.

(** ** Resource accessors *)

(** [common_utils.find(lambda a: a.key().id() == id, gatherings)]: the
    first item with that id; [a.key()] raises on an unsaved item met on
    the way. *)
Fixpoint find_by_id (id : Z) (gatherings : list GatheringEntity)
    : M (option GatheringEntity) :=
  match gatherings with
  | [] => ret None
  | a :: rest =>
      match key a with
      | None => raise NotSavedError
      | Some i => if bool_decide (i = id) then ret (Some a)
                  else find_by_id id rest
      end
  end.

(** The environment of a request that belongs to no course.  Its fields
    are never read: such a request lists with no locale, and a listing
    with no locale runs no overlay. *)
Definition no_course : AppContext :=
  mkAppContext "" "" false false 0 (λ _ _, (TNone, TNone)).

(** [TranslatableResourceGathering.get_i18n_title]; [app_context] is what
    [sites.get_course_for_current_request()] returns, a course or [None],
    and [resource_id] is [int(resource_key.key)]. *)
Definition get_i18n_title (app_context : option AppContext) (resource_id : Z)
    : M (option string) :=
  let locale := None in
  let locale :=
    match app_context with
    | Some course =>
        if bool_decide (default_locale course ≠ current_locale course)
        then Some (current_locale course) else locale
    | None => locale
    end in
  gatherings <~ GatheringEntity.get_gatherings
                  (default no_course app_context) locale ;;
  item <~ find_by_id resource_id gatherings ;;
  ret (title <$> item).

(** [TranslatableResourceGathering.get_resources_and_keys]. *)
Definition get_resources_and_keys (ctx : AppContext)
    : M (list (GatheringEntity * ResourceKey)) :=
  gatherings <~ GatheringEntity.get_gatherings ctx None ;;
  mapM (λ gathering,
          k <~ TranslatableResourceGathering.key_for_entity gathering ;;
          ret (gathering, k))
       gatherings.

(** [TranslatableResourceGathering.get_resource_types]. *)
Definition get_resource_types : list string := [ResourceHandlerGathering.TYPE].

(** [ResourceHandlerGathering.get_resource]: the entity under
    [db.Key.from_path(kind, int(key))]. *)
Definition get_resource (k : Z) : M (option GatheringEntity) :=
  GatheringEntity.get (db.KId k).

(** [ResourceHandlerGathering.get_resource_title]. *)
Definition get_resource_title (rsrc : GatheringEntity) : string := title rsrc.

(** [ResourceHandlerGathering.get_view_url]. *)
Definition get_view_url (rsrc : GatheringEntity) : string :=
  GatheringsStudentHandler.URL_lstrip.

(** ** Store and feed invariants *)

(** A row with this id is stored. *)
Definition stored (id : Z) (rows : list GatheringEntity) : Prop :=
  ∃ r, r ∈ rows ∧ key r = Some id.

(** Ids are unique among the rows and all below the allocator. *)
Definition store_ids_fresh (s : State) : Prop :=
  NoDup (key <$> datastore s) ∧
  Forall (λ r, ∃ id, key r = Some id ∧ (id < next_id s)%Z) (datastore s).

(** Every item of the feed names a stored gathering. *)
Definition news_live (s : State) : Prop :=
  ∀ it, it ∈ news s →
    rk_type (resource_key it) = ResourceHandlerGathering.TYPE ∧
    stored (rk_id (resource_key it)) (datastore s).

(** A published-only feed entry point: one handler call on the write
    surface of the module. *)
Inductive WriteCall :=
| CallRestPut (request : GatheringsItemRESTHandler.PutRequest)
| CallRestDelete (k : db.ReqKey) (xsrf_ok : bool)
| CallSetDraftStatus (k : db.ReqKey) (set_draft : string)
| CallAddGathering
| CallDeleteGathering (k : db.ReqKey).

Definition run_call (self : AppContext) (c : WriteCall) : M Response :=
  match c with
  | CallRestPut request => GatheringsItemRESTHandler.put self request
  | CallRestDelete k xsrf_ok => GatheringsItemRESTHandler.delete self k xsrf_ok
  | CallSetDraftStatus k set_draft =>
      GatheringsItemRESTHandler.post_set_draft_status self k set_draft
  | CallAddGathering => GatheringsDashboardHandler.post_add_gathering self
  | CallDeleteGathering k =>
      GatheringsDashboardHandler.post_delete_gathering self k
  end.

(** The shape of every write the handlers make: the feed grows by at most
    one item, for a stored gathering, or loses the items of one id
    together with the rows of that id; rows are otherwise only replaced
    under their own id. *)
Definition feed_step (s s' : State) : Prop :=
  (news s' = news s ∧ datastore s' = datastore s) ∨
  (∃ id items e,
     stored id (datastore s) ∧ key e = Some id ∧
     (items = [] ∨
      items = [mkNewsItem (mkResourceKey ResourceHandlerGathering.TYPE id)
                          "gatherings"]) ∧
     news s' = (news s ++ items)%list ∧
     (datastore s' = datastore s ∨
      datastore s' = db.replace id e (datastore s))) ∨
  (∃ id,
     news s' = filter (λ it, resource_key it
                             ≠ mkResourceKey ResourceHandlerGathering.TYPE id)
                      (news s) ∧
     datastore s' = filter (λ r, key r ≠ Some id) (datastore s)).

(** Anything the module is asked to do: a write, a listing, the student
    page, or the translation-changed signal. *)
Inductive Request :=
| ReqWrite (c : WriteCall)
| ReqList (locale : option string)
| ReqStudentPage
| ReqTranslationsChanged (l : string).

(** The world after a request was served. *)
Definition serve (s : State) (r : AppContext * Request) : State :=
  match snd r with
  | ReqWrite c => snd (run_call (fst r) c s)
  | ReqList locale => snd (GatheringEntity.get_gatherings (fst r) locale s)
  | ReqStudentPage => snd (GatheringsStudentHandler.get_list (fst r) s)
  | ReqTranslationsChanged l => snd (notify_translations_changed l s)
  end.

(** What a write does to store and cache: nothing, or a row replaced
    under its id or the rows of an id removed, with the default partition
    dropped. *)
Definition cache_step (s s' : State) : Prop :=
  (datastore s' = datastore s ∧ memcache s' = memcache s) ∨
  (memcache s' = delete GatheringEntity._MEMCACHE_KEY (memcache s) ∧
   ((∃ id e, key e = Some id ∧ datastore s' = db.replace id e (datastore s)) ∨
    (∃ id, datastore s' = filter (λ r, key r ≠ Some id) (datastore s)))).

(** A feed holding the announcement of gathering 2. *)
Definition announced_state : State :=
  mkState [g3; g1; g2] 4 ∅
          [mkNewsItem (mkResourceKey "gathering" 2) "gatherings"] [].

(** * Verification *)

(** ** Running the monad *)

Lemma bind_ret_l {A B} (a : A) (k : A → M B) s : bind (ret a) k s = k a s.
Proof. reflexivity. Qed.

Lemma bind_inr {A B} (m : M A) (k : A → M B) s a s' :
  m s = (inr a, s') → bind m k s = k a s'.
Proof. intros H. unfold bind. by rewrite H. Qed.

Lemma bind_inl {A B} (m : M A) (k : A → M B) s e s' :
  m s = (inl e, s') → bind m k s = (inl e, s').
Proof. intros H. unfold bind. by rewrite H. Qed.

(** ** Cache keys *)

Lemma cache_key_default : GatheringEntity._cache_key None = "gatherings".
Proof. reflexivity. Qed.

Lemma cache_key_locale (l : string) :
  l ≠ "" → GatheringEntity._cache_key (Some l) = "gatherings:" +:+ l.
Proof.
  intros Hl. unfold GatheringEntity._cache_key, locale_truthy.
  rewrite bool_decide_eq_false_2 by done. reflexivity.
Qed.

Lemma cache_key_inj (L1 L2 : option string) :
  L1 ≠ Some "" → L2 ≠ Some "" →
  GatheringEntity._cache_key L1 = GatheringEntity._cache_key L2 → L1 = L2.
Proof.
  intros H1 H2.
  destruct L1 as [l1|], L2 as [l2|]; try done.
  - rewrite !cache_key_locale by congruence. simpl. intros H. by simplify_eq.
  - rewrite cache_key_locale by congruence. simpl. discriminate.
  - rewrite cache_key_locale by congruence. simpl. discriminate.
Qed.

(** The empty string is falsy, so it names the default partition. *)
Lemma cache_key_empty :
  GatheringEntity._cache_key (Some "") = GatheringEntity._cache_key None.
Proof. reflexivity. Qed.

Lemma purge_cache_run (L : option string) (s : State) :
  GatheringEntity.purge_cache L s =
  (inr (), mkState (datastore s) (next_id s)
             (delete (GatheringEntity._cache_key L) (memcache s)) (news s)
             (trace s ++ [EvMemcacheDelete (GatheringEntity._cache_key L)])).
Proof. reflexivity. Qed.

(** C3: purging partition L1 leaves every other partition L2 as it was,
    and the translation-changed signal for locale l drops partition l
    and nothing else: not the default partition, not another locale's.
    Locales are locale names, so a given locale is a non-empty string. *)
Theorem purge_cache_partition_local
    (s : State) (L1 L2 : option string) (l : string) :
  L1 ≠ Some "" → L2 ≠ Some "" → L1 ≠ L2 → l ≠ "" →
  (fst (GatheringEntity.purge_cache L1 s) = inr () ∧
   memcache (snd (GatheringEntity.purge_cache L1 s))
     !! GatheringEntity._cache_key L2
   = memcache s !! GatheringEntity._cache_key L2) ∧
  (let s' := snd (notify_translations_changed l s) in
   fst (notify_translations_changed l s) = inr () ∧
   memcache s' !! GatheringEntity._cache_key (Some l) = None ∧
   memcache s' !! GatheringEntity._cache_key None
   = memcache s !! GatheringEntity._cache_key None ∧
   (∀ L, L ≠ Some "" → L ≠ Some l →
      memcache s' !! GatheringEntity._cache_key L
      = memcache s !! GatheringEntity._cache_key L) ∧
   (∀ k, k ≠ GatheringEntity._cache_key (Some l) →
      memcache s' !! k = memcache s !! k)).
Proof.
  intros H1 H2 Hne Hl. split.
  - rewrite purge_cache_run. simpl. split; [done|].
    apply lookup_delete_ne. intros Hk. by apply cache_key_inj in Hk.
  - unfold notify_translations_changed. rewrite purge_cache_run. simpl.
    assert (Hsome : Some l ≠ Some "") by congruence.
    repeat split.
    + apply lookup_delete_eq.
    + apply lookup_delete_ne. intros Hk. by apply cache_key_inj in Hk.
    + intros L HL HLl. apply lookup_delete_ne. intros Hk.
      apply cache_key_inj in Hk; congruence.
    + intros k Hk. by apply lookup_delete_ne.
Qed.

Lemma purge_cache_partition_local_witness :
  (None ≠ Some "" ∧ Some "de" ≠ Some "" ∧ None ≠ Some "de" ∧ "de" ≠ "") ∧
  memcache (snd (GatheringEntity.purge_cache None warm_de_state))
    !! GatheringEntity._cache_key (Some "de")
  = memcache warm_de_state !! GatheringEntity._cache_key (Some "de").
Proof.
  split; [done|].
  exact (proj2 (proj1 (purge_cache_partition_local
           warm_de_state None (Some "de") "de"
           ltac:(done) ltac:(done) ltac:(done) ltac:(done)))).
Defined.

(** ** Creating a gathering *)

Lemma entitity_not_global : "entitity" ∉ module_globals.
Proof. apply (bool_decide_eq_false_1 ("entitity" ∈ module_globals)). by vm_compute. Qed.

(** A name bound neither locally nor in the module raises. *)
Lemma load_name_unbound (locals : list (string * Obj)) (name : string) (s : State) :
  Forall (λ b, fst b ≠ name) locals →
  name ∉ module_globals →
  load_name locals name s = (inl (NameError name), s).
Proof.
  intros Hlocals Hglobals. unfold load_name.
  assert (Hfind : List.find (λ b, bool_decide (fst b = name)) locals = None).
  { induction Hlocals as [|b locals Hb _ IH]; [done|].
    cbn. by rewrite bool_decide_eq_false_2. }
  rewrite Hfind. by rewrite bool_decide_eq_false_2.
Qed.

(** C5: [make] never gets to build the record.  Its fourth statement
    reads the name [entitity], which is bound nowhere (the local is
    [entity]), so every call raises [NameError] and returns nothing. *)
Theorem make_raises_NameError
    (ctx : AppContext) (title_ html_ : string) (is_draft_ : bool) (s : State) :
  GatheringEntity.make ctx title_ html_ is_draft_ s
  = (inl (NameError "entitity"), s).
Proof.
  unfold GatheringEntity.make.
  apply bind_inl, load_name_unbound; [|apply entitity_not_global].
  repeat constructor; discriminate.
Qed.

(** Adding a gathering from the dashboard fails the same way and leaves
    the world untouched. *)
Lemma post_add_gathering_raises (ctx : AppContext) (s : State) :
  GatheringsRights.can_add ctx = true →
  GatheringsDashboardHandler.post_add_gathering ctx s
  = (inl (NameError "entitity"), s).
Proof.
  intros Hadd. unfold GatheringsDashboardHandler.post_add_gathering.
  rewrite Hadd. reflexivity.
Qed.

(** ** Draft visibility *)

Lemma allowed_loop_filter (items allowed : list GatheringEntity) :
  GatheringsRights.allowed_loop items allowed
  = (allowed ++ filter (λ item, is_draft item = false) items)%list.
Proof.
  revert allowed. induction items as [|item rest IH]; intros allowed; simpl.
  - by rewrite app_nil_r.
  - destruct (is_draft item) eqn:Hd; simpl.
    + rewrite IH, filter_cons_False by (rewrite Hd; done). done.
    + rewrite IH, filter_cons_True by done. by rewrite <- app_assoc.
Qed.

(** C9: an editor gets the list as it is; anyone else gets exactly the
    published items, in their original order; and a non-editor asking the
    REST handler for a single draft gathering is answered 401, without
    the entity and without any effect. *)
Theorem drafts_visible_to_editors_only
    (handler : AppContext) (items : list GatheringEntity) :
  (GatheringsRights.can_edit handler = true →
     GatheringsRights.apply_rights handler items = items) ∧
  (GatheringsRights.can_edit handler = false →
     GatheringsRights.apply_rights handler items
     = filter (λ item, is_draft item = false) items ∧
     GatheringsRights.apply_rights handler items `sublist_of` items) ∧
  (∀ (s : State) (id : Z) (entity : GatheringEntity),
     GatheringsRights.can_edit handler = false →
     List.find (db.has_id id) (datastore s) = Some entity →
     is_draft entity = true →
     GatheringsItemRESTHandler.get handler (db.KId id) s
     = (inr (JsonResponse 401 (Msg "Access denied.") (PKey (db.KId id))), s)).
Proof.
  unfold GatheringsRights.apply_rights. repeat split.
  - by intros ->.
  - rewrite H. by rewrite allowed_loop_filter.
  - rewrite H, allowed_loop_filter. simpl. apply sublist_filter.
  - intros s id entity Hedit Hfind Hdraft.
    unfold GatheringsItemRESTHandler.get, except_BadKeyError,
      GatheringEntity.get, db.get, bind, GatheringsRights.apply_rights.
    rewrite Hfind, Hedit. simpl. by rewrite Hdraft.
Qed.

Lemma drafts_visible_to_editors_only_witness :
  GatheringsRights.can_edit student_ctx = false ∧
  List.find (db.has_id 1) (datastore cold_state) = Some g1 ∧
  is_draft g1 = true ∧
  GatheringsRights.apply_rights student_ctx [g3; g1; g2] = [g3; g2] ∧
  GatheringsItemRESTHandler.get student_ctx (db.KId 1) cold_state
  = (inr (JsonResponse 401 (Msg "Access denied.") (PKey (db.KId 1))),
     cold_state).
Proof.
  pose proof (drafts_visible_to_editors_only student_ctx [g3; g1; g2])
    as (_ & Hstudent & Hget).
  split; [done|]. split; [done|]. split; [done|]. split.
  - exact (proj1 (Hstudent eq_refl)).
  - exact (Hget cold_state 1%Z g1 eq_refl eq_refl eq_refl).
Defined.

(** ** Setting the draft status *)

(** C10: a [set_draft] value other than ['0'] and ['1'] changes nothing:
    whatever the key and the caller, the state after the call is the
    state before it (no flag written, nothing persisted, no news item);
    for a well-formed key the handler answers with an error status, and
    for an editor and an existing entity with the 401 that names the bad
    value. *)
Theorem post_set_draft_status_invalid_value
    (handler : AppContext) (k : db.ReqKey) (set_draft : string) (s : State) :
  set_draft ≠ "0" → set_draft ≠ "1" →
  snd (GatheringsItemRESTHandler.post_set_draft_status handler k set_draft s) = s ∧
  (∀ id, k = db.KId id →
     ∃ status msg payload,
       fst (GatheringsItemRESTHandler.post_set_draft_status handler k set_draft s)
       = inr (JsonResponse status msg payload) ∧ status ≠ 200%Z) ∧
  (∀ id entity,
     k = db.KId id →
     GatheringsRights.can_edit handler = true →
     List.find (db.has_id id) (datastore s) = Some entity →
     fst (GatheringsItemRESTHandler.post_set_draft_status handler k set_draft s)
     = inr (JsonResponse 401
              (Msg "Invalid set_draft value, expected 0 or 1.")
              (PSetDraft set_draft))).
Proof.
  intros H0 H1.
  unfold GatheringsItemRESTHandler.post_set_draft_status.
  rewrite (bool_decide_eq_false_2 (set_draft = "1")) by done.
  rewrite (bool_decide_eq_false_2 (set_draft = "0")) by done.
  repeat split.
  - destruct (GatheringsRights.can_edit handler); [|done].
    destruct k as [|id]; [done|].
    unfold bind, GatheringEntity.get, db.get; simpl.
    by destruct (List.find _ _).
  - intros id ->.
    destruct (GatheringsRights.can_edit handler); simpl.
    + unfold bind, GatheringEntity.get, db.get; simpl.
      destruct (List.find _ _); simpl; eauto 10.
    + eauto 10.
  - intros id entity -> -> Hfind.
    unfold bind, GatheringEntity.get, db.get; simpl. by rewrite Hfind.
Qed.

Lemma post_set_draft_status_invalid_value_witness :
  ("yes" ≠ "0" ∧ "yes" ≠ "1") ∧
  GatheringsItemRESTHandler.post_set_draft_status
    editor_ctx (db.KId 1) "yes" cold_state
  = (inr (JsonResponse 401
            (Msg "Invalid set_draft value, expected 0 or 1.")
            (PSetDraft "yes")), cold_state).
Proof.
  split; [done|].
  pose proof (post_set_draft_status_invalid_value
                editor_ctx (db.KId 1) "yes" cold_state
                ltac:(done) ltac:(done)) as (Hs & _ & Hr).
  specialize (Hr 1%Z g1 eq_refl eq_refl eq_refl).
  destruct (GatheringsItemRESTHandler.post_set_draft_status _ _ _ _).
  simpl in *. by subst.
Defined.

(** ** Persisting an entity *)

Lemma entity_put_saved (ctx : AppContext) (e : GatheringEntity) (id : Z) s :
  key e = Some id →
  GatheringEntity.put ctx e s
  = (inr e,
     mkState (db.replace id e (datastore s)) (next_id s)
             (delete GatheringEntity._MEMCACHE_KEY (memcache s)) (news s)
             (trace s ++ [EvDbPut id;
                          EvMemcacheDelete GatheringEntity._MEMCACHE_KEY]
                      ++ i18n_events ctx id)).
Proof.
  intros Hk. unfold GatheringEntity.put, db.put, i18n_events. rewrite Hk.
  unfold bind at 1. simpl.
  unfold bind at 1. rewrite purge_cache_run. simpl.
  unfold TranslatableResourceGathering.key_for_entity. rewrite Hk.
  destruct (is_translatable_course ctx); unfold bind, ret, log; simpl;
    rewrite <- ?app_assoc; simpl; by rewrite ?app_nil_r.
Qed.

Lemma entity_put_fresh (ctx : AppContext) (e : GatheringEntity) s :
  key e = None →
  GatheringEntity.put ctx e s
  = (inr (set_key (Some (next_id s)) e),
     mkState (datastore s ++ [set_key (Some (next_id s)) e]) (next_id s + 1)
             (delete GatheringEntity._MEMCACHE_KEY (memcache s)) (news s)
             (trace s ++ [EvDbPut (next_id s);
                          EvMemcacheDelete GatheringEntity._MEMCACHE_KEY]
                      ++ i18n_events ctx (next_id s))).
Proof.
  intros Hk. unfold GatheringEntity.put, db.put, i18n_events. rewrite Hk.
  unfold bind at 1. simpl.
  unfold bind at 1. rewrite purge_cache_run. simpl.
  destruct (is_translatable_course ctx); unfold bind, ret, log; simpl;
    rewrite <- ?app_assoc; simpl; by rewrite ?app_nil_r.
Qed.

Lemma find_has_id (id : Z) (rows : list GatheringEntity) (e : GatheringEntity) :
  List.find (db.has_id id) rows = Some e → key e = Some id ∧ e ∈ rows.
Proof.
  intros H. apply find_some in H as [Hin Hid].
  unfold db.has_id in Hid. apply bool_decide_eq_true in Hid.
  split; [done|]. by apply list_elem_of_In.
Qed.

(** ** Draft to published: the news item *)

Lemma news_item_for_saved (e : GatheringEntity) (id : Z) s :
  key e = Some id →
  GatheringsItemRESTHandler.news_item_for e s
  = (inr (mkNewsItem (mkResourceKey ResourceHandlerGathering.TYPE id)
                     "gatherings"), s).
Proof.
  intros Hk. unfold GatheringsItemRESTHandler.news_item_for,
    TranslatableResourceGathering.key_for_entity. by rewrite Hk.
Qed.

Ltac decide_closed :=
  repeat match goal with
  | |- context [bool_decide ?P] =>
      let b := eval vm_compute in (bool_decide P) in
      change (bool_decide P) with b
  end.

(** The [setDraftStatus] path does what is asked of it: one news item,
    logged ahead of the datastore put, exactly when a draft entity is
    published, and none for the three other combinations. *)
Lemma post_set_draft_status_run
    (handler : AppContext) (id : Z) (entity : GatheringEntity)
    (set_draft : bool) (s : State) :
  GatheringsRights.can_edit handler = true →
  List.find (db.has_id id) (datastore s) = Some entity →
  let k := mkResourceKey ResourceHandlerGathering.TYPE id in
  let emitted := is_draft entity && negb set_draft in
  GatheringsItemRESTHandler.post_set_draft_status
    handler (db.KId id) (if set_draft then "1" else "0") s
  = (inr (JsonResponse 200 (MsgDraftStatus set_draft) (PIsDraft set_draft)),
     mkState (db.replace id (set_is_draft set_draft entity) (datastore s))
       (next_id s) (delete GatheringEntity._MEMCACHE_KEY (memcache s))
       (news s ++ if emitted then [mkNewsItem k "gatherings"] else [])
       (trace s ++ (if emitted then [EvNewsAdd k] else [])
          ++ [EvDbPut id; EvMemcacheDelete GatheringEntity._MEMCACHE_KEY]
          ++ i18n_events handler id)).
Proof.
  intros Hedit Hfind. pose proof (find_has_id _ _ _ Hfind) as [Hk _].
  cbv zeta.
  unfold GatheringsItemRESTHandler.post_set_draft_status.
  rewrite Hedit. cbn [negb].
  unfold GatheringEntity.get, db.get, bind. cbn beta iota. rewrite Hfind.
  cbn beta iota.
  destruct set_draft, (is_draft entity) eqn:Hd; decide_closed;
    cbn -[GatheringEntity.put GatheringsItemRESTHandler.news_item_for].
  all: rewrite ?(news_item_for_saved _ id) by done.
  all: cbn -[GatheringEntity.put].
  all: rewrite (entity_put_saved _ _ id) by done.
  all: cbn; rewrite ?app_nil_r, <- ?app_assoc; done.
Qed.

(** The partial update leaves the world and the entity's key alone. *)
Lemma update_property_run d name (e : GatheringEntity) (s : State) :
  ∃ r, update_property d name e s = (r, s) ∧
       ∀ e', r = inr e' → key e' = key e.
Proof.
  unfold update_property, assign_property.
  destruct (d !! name) as [v|]; [|by eexists; split; [done|]; intros; simplify_eq].
  repeat case_bool_decide; destruct v;
    (eexists; split; [reflexivity|]; intros; by simplify_eq).
Qed.

Lemma dict_to_entity_run (e : GatheringEntity) d (s : State) :
  ∃ r, dict_to_entity e d s = (r, s) ∧ ∀ e', r = inr e' → key e' = key e.
Proof.
  unfold dict_to_entity.
  destruct (update_property_run d "title" e s) as (r1 & H1 & K1).
  unfold bind at 1. rewrite H1.
  destruct r1 as [x|e1]; [by eexists; split; [done|]; intros; simplify_eq|].
  destruct (update_property_run d "html" e1 s) as (r2 & H2 & K2).
  unfold bind at 1. rewrite H2.
  destruct r2 as [x|e2]; [by eexists; split; [done|]; intros; simplify_eq|].
  destruct (update_property_run d "start_time" e2 s) as (r3 & H3 & K3).
  unfold bind at 1. rewrite H3.
  destruct r3 as [x|e3]; [by eexists; split; [done|]; intros; simplify_eq|].
  destruct (update_property_run d "end_time" e3 s) as (r4 & H4 & K4).
  unfold bind at 1. rewrite H4.
  destruct r4 as [x|e4]; [by eexists; split; [done|]; intros; simplify_eq|].
  destruct (update_property_run d "is_draft" e4 s) as (r5 & H5 & K5).
  exists r5. split; [done|]. intros e' He'.
  rewrite (K5 _ He'), (K4 _ eq_refl), (K3 _ eq_refl), (K2 _ eq_refl).
  by apply K1.
Qed.

Lemma entity_put_news (ctx : AppContext) (e : GatheringEntity) (s : State) :
  news (snd (GatheringEntity.put ctx e s)) = news s.
Proof.
  destruct (key e) as [id|] eqn:Hk.
  - by rewrite (entity_put_saved _ _ id).
  - by rewrite entity_put_fresh.
Qed.

(** The REST [put] path decides on the stored flag and on a [set_draft]
    entry of the update dictionary; the new [is_draft] value is not looked
    at.  Whatever happens afterwards, the feed has grown by one item
    exactly when that test passed. *)
Lemma rest_put_news
    (self : AppContext) (request : GatheringsItemRESTHandler.PutRequest)
    (id : Z) (entity : GatheringEntity) (s : State) :
  GatheringsItemRESTHandler.put_xsrf_ok request = true →
  GatheringsRights.can_edit self = true →
  GatheringsItemRESTHandler.put_key request = db.KId id →
  List.find (db.has_id id) (datastore s) = Some entity →
  news (snd (GatheringsItemRESTHandler.put self request s))
  = (news s ++
     if is_draft entity &&
        negb (truthy (dict_get (GatheringsItemRESTHandler.put_update_dict request)
                               "set_draft"))
     then [mkNewsItem (mkResourceKey ResourceHandlerGathering.TYPE id)
                      "gatherings"]
     else [])%list.
Proof.
  intros Hx Hedit Hkey Hfind. pose proof (find_has_id _ _ _ Hfind) as [Hk _].
  unfold GatheringsItemRESTHandler.put. rewrite Hx, Hedit, Hkey. cbn [negb].
  unfold GatheringEntity.get, db.get, bind at 1. rewrite Hfind.
  assert (Htail : ∀ s0,
    news (snd ((update_dict <~ dict_del
                   (GatheringsItemRESTHandler.put_update_dict request) "key" ;;
                entity0 <~ dict_to_entity entity update_dict ;;
                GatheringEntity.put self entity0 ;;;
                ret (JsonResponse 200 (Msg "Saved.") PNone)) s0)) = news s0).
  { intros s0. unfold dict_del.
    destruct (_ !! "key") as [kv|]; [|done].
    rewrite bind_ret_l.
    destruct (dict_to_entity_run entity
                (delete "key" (GatheringsItemRESTHandler.put_update_dict request))
                s0) as (r & Hr & _).
    unfold bind at 1. rewrite Hr. destruct r as [x|e']; [done|].
    unfold bind at 1.
    pose proof (entity_put_news self e' s0) as Hn.
    destruct (GatheringEntity.put self e' s0) as [[x|e''] s2]; done. }
  destruct (is_draft entity && negb _) eqn:Hc.
  - erewrite bind_inr; cycle 1.
    { erewrite bind_inr by (by apply news_item_for_saved). reflexivity. }
    by rewrite Htail.
  - rewrite bind_ret_l. cbn beta. rewrite Htail. by rewrite app_nil_r.
Qed.

(** C1: the claim fails on the REST [put] path.  An editor saves the
    draft gathering 1 and keeps it a draft; the handler answers 200, the
    stored entity is still a draft, and yet one news item was added, ahead
    of the datastore put. *)
Theorem rest_put_draft_to_draft_emits_news :
  let r := GatheringsItemRESTHandler.put editor_ctx keep_draft_request
             cold_state in
  let k := mkResourceKey "gathering" 1 in
  List.find (db.has_id 1) (datastore cold_state) = Some g1 ∧
  is_draft g1 = true ∧
  fst r = inr (JsonResponse 200 (Msg "Saved.") PNone) ∧
  List.find (db.has_id 1) (datastore (snd r))
  = Some (mkGathering (Some 1) "Kickoff (moved)" 400 2200 "<p>kickoff</p>" true) ∧
  news cold_state = [] ∧
  news (snd r) = [mkNewsItem k "gatherings"] ∧
  trace (snd r)
  = [EvNewsAdd k; EvDbPut 1; EvMemcacheDelete "gatherings"; EvI18nUpdate k].
Proof. vm_compute. repeat split. Qed.

(** ** The listing sort *)

Global Instance later_first_trans : Transitive later_first.
Proof. unfold later_first. intros a b c ? ?. lia. Qed.

Lemma insert_desc_perm (x : GatheringEntity) (l : list GatheringEntity) :
  GatheringEntity.insert_desc x l ≡ₚ x :: l.
Proof.
  induction l as [|y l IH]; simpl; [done|].
  case_match; [|done]. rewrite IH. apply Permutation_swap.
Qed.

Lemma sort_desc_perm (l : list GatheringEntity) :
  GatheringEntity.sort_desc l ≡ₚ l.
Proof.
  induction l as [|x l IH]; simpl; [done|].
  by rewrite insert_desc_perm, IH.
Qed.

Lemma insert_desc_sorted (x : GatheringEntity) (l : list GatheringEntity) :
  sorted_desc l → sorted_desc (GatheringEntity.insert_desc x l).
Proof.
  unfold sorted_desc. induction 1 as [|y l Hs IH Hhd]; simpl.
  - by repeat constructor.
  - destruct (Z.ltb_spec (start_time x) (start_time y)) as [Hlt|Hge].
    + constructor; [done|].
      destruct Hhd as [|z l Hz]; simpl.
      * constructor. unfold later_first. lia.
      * case_match; constructor; [done|]. unfold later_first. lia.
    + constructor; [by constructor|]. by constructor.
Qed.

Lemma sort_desc_sorted (l : list GatheringEntity) :
  sorted_desc (GatheringEntity.sort_desc l).
Proof.
  induction l as [|x l IH]; simpl; [constructor|].
  by apply insert_desc_sorted.
Qed.

(** With pairwise distinct start times there is one descending
    arrangement, whatever order the scan came in. *)
Lemma sort_desc_unique (l sorted : list GatheringEntity) :
  NoDup (start_time <$> sorted) →
  sorted_desc sorted →
  l ≡ₚ sorted →
  GatheringEntity.sort_desc l = sorted.
Proof.
  intros Hnd Hsorted Hperm.
  apply (Sorted_unique_strong later_first).
  - intros a b Ha Hb Hab Hba.
    rewrite sort_desc_perm, Hperm in Ha.
    apply list_elem_of_lookup in Ha as [i Hi], Hb as [j Hj].
    assert (i = j) as ->; [|congruence].
    apply (NoDup_lookup _ i j (start_time a) Hnd).
    + by rewrite list_lookup_fmap, Hi.
    + rewrite list_lookup_fmap, Hj. simpl. f_equal.
      unfold later_first in *. lia.
  - apply sort_desc_sorted.
  - done.
  - by rewrite sort_desc_perm.
Qed.

Lemma py_str_run (v : PyText) (s : State) :
  py_str v s
  = (match str_result v with
     | Some x => inr x
     | None => inl UnicodeEncodeError
     end, s).
Proof.
  unfold py_str, str_result. destruct v as [|x|cps]; [done|done|].
  by destruct (is_ascii_text cps).
Qed.

Lemma translated_same_frame (ctx : AppContext) (e e' : GatheringEntity) :
  translated ctx e = Some e' → same_frame e e'.
Proof.
  unfold translated, overlay. destruct (key e) eqn:Hk; [|done].
  destruct (str_result _); [|done]. destruct (str_result _); [|done].
  intros [= <-]. unfold same_frame. cbn. by rewrite Hk.
Qed.

Lemma translated_list_each (ctx : AppContext) (l l' : list GatheringEntity) :
  translated_list ctx l = Some l' →
  Forall2 (λ a b, translated ctx a = Some b) l l'.
Proof.
  revert l'. induction l as [|a l IH]; intros l'; cbn.
  - intros [= <-]. constructor.
  - destruct (translated ctx a) as [a'|] eqn:Ha; [|done].
    destruct (translated_list ctx l) as [rest|]; [|done].
    intros [= <-]. constructor; [done|by apply IH].
Qed.

Lemma translated_list_frames (ctx : AppContext) (l l' : list GatheringEntity) :
  translated_list ctx l = Some l' → Forall2 same_frame l l'.
Proof.
  intros H. eapply Forall2_impl; [by apply translated_list_each|].
  intros a b. apply translated_same_frame.
Qed.

Lemma sorted_desc_frames (l l' : list GatheringEntity) :
  Forall2 same_frame l l' → sorted_desc l → sorted_desc l'.
Proof.
  unfold sorted_desc. intros Hframes Hs. revert l' Hframes.
  induction Hs as [|a l Hs IH Hhd]; intros l' Hframes.
  - apply Forall2_nil_inv_l in Hframes as ->. constructor.
  - apply Forall2_cons_inv_l in Hframes as (a' & rest & Ha & Hrest & ->).
    constructor; [by apply IH|].
    destruct Hhd as [|b l Hb].
    + apply Forall2_nil_inv_l in Hrest as ->. constructor.
    + apply Forall2_cons_inv_l in Hrest as (b' & rest' & Hb' & _ & ->).
      constructor. unfold later_first in *.
      destruct Ha as (_ & <- & _), Hb' as (_ & <- & _). done.
Qed.

Lemma sorted_desc_translated (ctx : AppContext) (l l' : list GatheringEntity) :
  translated_list ctx l = Some l' → sorted_desc l → sorted_desc l'.
Proof.
  intros H. apply sorted_desc_frames. by eapply translated_list_frames.
Qed.

(** ** Running the read path *)

Lemma get_gatherings_hit (ctx : AppContext) (locale : option string)
    (v : list GatheringEntity) (s : State) :
  memcache s !! GatheringEntity._cache_key locale = Some v →
  GatheringEntity.get_gatherings ctx locale s = (inr v, s).
Proof.
  intros Hhit. unfold GatheringEntity.get_gatherings, MemcacheManager.get.
  unfold bind at 1. by rewrite Hhit.
Qed.

Lemma get_gatherings_miss_default (ctx : AppContext) (locale : option string)
    (s : State) :
  locale_truthy locale = false →
  memcache s !! GatheringEntity._MEMCACHE_KEY = None →
  GatheringEntity.get_gatherings ctx locale s
  = (inr (GatheringEntity.sort_desc (datastore s)),
     cache_filled GatheringEntity._MEMCACHE_KEY
                  (GatheringEntity.sort_desc (datastore s)) s).
Proof.
  intros Hl Hmiss.
  unfold GatheringEntity.get_gatherings, GatheringEntity._cache_key.
  rewrite Hl. cbn [negb]. unfold MemcacheManager.get, bind at 1.
  by rewrite Hmiss.
Qed.

Lemma mapM_key_for_entity (items : list GatheringEntity) (s : State) :
  Forall (λ e, is_Some (key e)) items →
  mapM TranslatableResourceGathering.key_for_entity items s
  = (inr (omap (λ e, mkResourceKey ResourceHandlerGathering.TYPE <$> key e)
               items), s).
Proof.
  induction 1 as [|e items [id Hid] _ IH]; [done|].
  cbn [mapM]. unfold bind at 1.
  unfold TranslatableResourceGathering.key_for_entity at 1. rewrite Hid.
  cbn. unfold bind at 1. rewrite IH. cbn. by rewrite Hid.
Qed.

Lemma assign_translation_run (ctx : AppContext) (item : GatheringEntity)
    (id : Z) (s : State) :
  key item = Some id →
  GatheringEntity.assign_translation
    (item, translate_dto ctx (mkResourceKey ResourceHandlerGathering.TYPE id)
                         (title item, html item)) s
  = (match translated ctx item with
     | Some item' => inr item'
     | None => inl UnicodeEncodeError
     end, s).
Proof.
  intros Hk. unfold GatheringEntity.assign_translation, translated, overlay.
  rewrite Hk.
  cbn [fst snd]. unfold bind at 1. rewrite py_str_run.
  destruct (str_result _) as [t|]; [|done].
  unfold bind at 1. rewrite py_str_run.
  by destruct (str_result _) as [h|].
Qed.

Lemma translate_content_run (ctx : AppContext) (items : list GatheringEntity)
    (s : State) :
  Forall (λ e, is_Some (key e)) items →
  GatheringEntity._translate_content ctx items s
  = (overlay_outcome ctx items, s).
Proof.
  intros Hsaved. unfold GatheringEntity._translate_content.
  erewrite bind_inr by (by apply mapM_key_for_entity).
  unfold GatheringEntity.translate_dto_list, overlay_outcome.
  induction Hsaved as [|e items [id Hid] _ IH]; [done|].
  cbn. rewrite Hid. cbn.
  unfold bind at 1.
  rewrite (assign_translation_run ctx e id s Hid).
  destruct (translated ctx e) as [e'|]; [|done].
  unfold bind at 1. rewrite IH.
  by destruct (translated_list ctx items).
Qed.

Lemma get_gatherings_miss_locale (ctx : AppContext) (l : string) (s : State) :
  l ≠ "" → store_saved s →
  memcache s !! GatheringEntity._cache_key (Some l) = None →
  GatheringEntity.get_gatherings ctx (Some l) s
  = match translated_list ctx (GatheringEntity.sort_desc (datastore s)) with
    | Some items =>
        (inr items, cache_filled (GatheringEntity._cache_key (Some l)) items s)
    | None => (inl UnicodeEncodeError, s)
    end.
Proof.
  intros Hl Hsaved Hmiss.
  unfold GatheringEntity.get_gatherings, MemcacheManager.get.
  unfold bind at 1. rewrite Hmiss. unfold db.iter_all.
  unfold bind at 1. cbn beta iota.
  assert (Ht : locale_truthy (Some l) = true)
    by (unfold locale_truthy; by rewrite bool_decide_eq_false_2).
  rewrite Ht. unfold bind at 1.
  rewrite translate_content_run
    by (unfold store_saved in Hsaved; by rewrite sort_desc_perm).
  unfold overlay_outcome.
  by destruct (translated_list ctx _).
Qed.

(** ** Writes and the cache *)

Lemma replace_elem (id : Z) (e : GatheringEntity) (rows : list GatheringEntity) :
  e ∈ db.replace id e rows.
Proof.
  unfold db.replace. destruct (existsb _ _) eqn:Hex.
  - apply existsb_exists in Hex as (r & Hin & Hr).
    apply list_elem_of_fmap. exists r. rewrite Hr.
    split; [done|]. by apply list_elem_of_In.
  - apply elem_of_app. right. by apply list_elem_of_singleton.
Qed.

Lemma entity_delete_run (e : GatheringEntity) (id : Z) (s : State) :
  key e = Some id →
  let k := mkResourceKey ResourceHandlerGathering.TYPE id in
  GatheringEntity.delete e s
  = (inr (),
     mkState (filter (λ r, key r ≠ Some id) (datastore s)) (next_id s)
             (delete GatheringEntity._MEMCACHE_KEY (memcache s))
             (filter (λ it, resource_key it ≠ k) (news s))
             (trace s ++ [EvNewsRemove k; EvDbDelete id;
                          EvMemcacheDelete GatheringEntity._MEMCACHE_KEY])).
Proof.
  intros Hk. cbv zeta.
  unfold GatheringEntity.delete, db.delete,
    TranslatableResourceGathering.key_for_entity. rewrite Hk.
  rewrite bind_ret_l.
  unfold CourseNewsDao.remove_news_item, bind, log. cbn beta iota.
  rewrite purge_cache_run. cbn. by rewrite <- !app_assoc.
Qed.

(** The two facts a write leaves behind in memcache. *)
Lemma delete_default_only (m : gmap string (list GatheringEntity)) :
  delete GatheringEntity._MEMCACHE_KEY m !! GatheringEntity._cache_key None = None ∧
  ∀ k, k ≠ GatheringEntity._cache_key None →
       delete GatheringEntity._MEMCACHE_KEY m !! k = m !! k.
Proof.
  split; [apply lookup_delete_eq|].
  intros k Hk. by apply lookup_delete_ne.
Qed.

Lemma stale_locale_listing (ctx : AppContext) (l : string)
    (v : list GatheringEntity) (s s' : State) :
  l ≠ "" →
  memcache s' = delete GatheringEntity._MEMCACHE_KEY (memcache s) →
  memcache s !! GatheringEntity._cache_key (Some l) = Some v →
  GatheringEntity.get_gatherings ctx (Some l) s' = (inr v, s').
Proof.
  intros Hl Hm Hv. apply get_gatherings_hit. rewrite Hm.
  rewrite lookup_delete_ne; [done|].
  rewrite cache_key_locale by done. simpl. discriminate.
Qed.

Lemma fresh_default_listing (ctx : AppContext) (s s' : State) :
  memcache s' = delete GatheringEntity._MEMCACHE_KEY (memcache s) →
  fst (GatheringEntity.get_gatherings ctx None s')
  = inr (GatheringEntity.sort_desc (datastore s')).
Proof.
  intros Hm. rewrite get_gatherings_miss_default; [done..|].
  rewrite Hm. apply lookup_delete_eq.
Qed.

(** C2: a put or a delete of a gathering drops the default partition and
    no other key of the cache.  The next default listing is therefore
    computed from the store as written (it holds the entity just put, and
    nothing with the id just deleted), while a locale partition cached
    before the write is still served as it was. *)
Theorem store_mutation_invalidates_default_only
    (ctx : AppContext) (e : GatheringEntity) (s : State) :
  (∃ e' s',
     GatheringEntity.put ctx e s = (inr e', s') ∧
     memcache s' !! GatheringEntity._cache_key None = None ∧
     (∀ k, k ≠ GatheringEntity._cache_key None →
           memcache s' !! k = memcache s !! k) ∧
     fst (GatheringEntity.get_gatherings ctx None s')
     = inr (GatheringEntity.sort_desc (datastore s')) ∧
     e' ∈ GatheringEntity.sort_desc (datastore s') ∧
     (∀ l v, l ≠ "" →
        memcache s !! GatheringEntity._cache_key (Some l) = Some v →
        GatheringEntity.get_gatherings ctx (Some l) s' = (inr v, s'))) ∧
  (∀ id, key e = Some id →
   ∃ s',
     GatheringEntity.delete e s = (inr (), s') ∧
     memcache s' !! GatheringEntity._cache_key None = None ∧
     (∀ k, k ≠ GatheringEntity._cache_key None →
           memcache s' !! k = memcache s !! k) ∧
     fst (GatheringEntity.get_gatherings ctx None s')
     = inr (GatheringEntity.sort_desc (datastore s')) ∧
     (∀ r, r ∈ GatheringEntity.sort_desc (datastore s') → key r ≠ Some id) ∧
     (∀ l v, l ≠ "" →
        memcache s !! GatheringEntity._cache_key (Some l) = Some v →
        GatheringEntity.get_gatherings ctx (Some l) s' = (inr v, s'))).
Proof.
  split.
  - destruct (key e) as [id|] eqn:Hk.
    + eexists _, _. split; [by apply entity_put_saved|]. cbn [memcache datastore].
      split; [apply delete_default_only|].
      split; [apply delete_default_only|].
      split; [by eapply fresh_default_listing|].
      split; [rewrite sort_desc_perm; apply replace_elem|].
      intros l v Hl Hv. by eapply stale_locale_listing.
    + eexists _, _. split; [by apply entity_put_fresh|]. cbn [memcache datastore].
      split; [apply delete_default_only|].
      split; [apply delete_default_only|].
      split; [by eapply fresh_default_listing|].
      split.
      { rewrite sort_desc_perm. apply elem_of_app. right.
        by apply list_elem_of_singleton. }
      intros l v Hl Hv. by eapply stale_locale_listing.
  - intros id Hk. eexists. split; [by apply entity_delete_run|].
    cbn [memcache datastore].
    split; [apply delete_default_only|].
    split; [apply delete_default_only|].
    split; [by eapply fresh_default_listing|].
    split.
    { intros r. rewrite sort_desc_perm. intros Hr.
      by apply list_elem_of_filter in Hr as [Hr _]. }
    intros l v Hl Hv. by eapply stale_locale_listing.
Qed.

Lemma store_mutation_invalidates_default_only_witness :
  key g2 = Some 2 ∧
  ∃ s', GatheringEntity.delete g2 warm_de_state = (inr (), s') ∧
        memcache s' !! GatheringEntity._cache_key None = None ∧
        GatheringEntity.get_gatherings editor_ctx (Some "de") s'
        = (inr [g2_de; g3_de], s').
Proof.
  split; [done|].
  destruct (proj2 (store_mutation_invalidates_default_only
                     editor_ctx g2 warm_de_state) 2%Z eq_refl)
    as (s' & Hrun & Hnone & _ & _ & _ & Hstale).
  exists s'. split; [done|]. split; [done|].
  apply Hstale; [done|]. by vm_compute.
Defined.

(** ** Deleting a gathering *)

Lemma filter_all {A} (P : A → Prop) `{!∀ x, Decision (P x)} (l : list A) :
  (∀ x, x ∈ l → P x) → filter P l = l.
Proof.
  induction l as [|x l IH]; intros Hall; [done|].
  rewrite filter_cons_True by (apply Hall; left).
  f_equal. apply IH. intros y Hy. apply Hall. by right.
Qed.

(** C8: deleting a saved gathering calls the collaborators in this order
    and no other: the news feed (remove the item of this resource), the
    datastore (delete the row), memcache (drop the default partition).
    Afterwards no news item refers to the entity, the other items are
    all still there, the feed is untouched when nothing was pending, and
    the row is gone. *)
Theorem delete_removes_news_then_row_then_cache
    (e : GatheringEntity) (id : Z) (s : State) :
  key e = Some id →
  let k := mkResourceKey ResourceHandlerGathering.TYPE id in
  ∃ s',
    GatheringEntity.delete e s = (inr (), s') ∧
    trace s' = (trace s ++ [EvNewsRemove k; EvDbDelete id;
                            EvMemcacheDelete GatheringEntity._MEMCACHE_KEY])%list ∧
    (∀ it, it ∈ news s' → resource_key it ≠ k) ∧
    (∀ it, it ∈ news s → resource_key it ≠ k → it ∈ news s') ∧
    ((∀ it, it ∈ news s → resource_key it ≠ k) → news s' = news s) ∧
    (∀ r, r ∈ datastore s' → key r ≠ Some id) ∧
    memcache s' !! GatheringEntity._cache_key None = None.
Proof.
  intros Hk k. eexists. split; [by apply entity_delete_run|].
  cbn [trace news datastore memcache]. repeat split.
  - intros it Hit. by apply list_elem_of_filter in Hit as [Hit _].
  - intros it Hit Hne. by apply list_elem_of_filter.
  - intros Hnone. by apply filter_all.
  - intros r Hr. by apply list_elem_of_filter in Hr as [Hr _].
  - apply lookup_delete_eq.
Qed.

Lemma delete_removes_news_then_row_then_cache_witness :
  key g2 = Some 2 ∧
  ∃ s', GatheringEntity.delete g2 cold_state = (inr (), s') ∧
        trace s' = [EvNewsRemove (mkResourceKey "gathering" 2); EvDbDelete 2;
                    EvMemcacheDelete "gatherings"].
Proof.
  split; [done|].
  destruct (delete_removes_news_then_row_then_cache g2 2%Z cold_state eq_refl)
    as (s' & Hrun & Htrace & _).
  exists s'. split; [done|]. exact Htrace.
Defined.

(** ** The default locale on the read path *)

(** C4: when the request's locale is the course's default locale,
    [get_list] asks for the listing with no locale at all.  It reads and
    fills the one key ["gatherings"], exactly as the dashboard listing
    (which passes no locale) does: a hit returns the cached entries, a miss
    stores the untranslated sorted scan. *)
Theorem default_locale_shares_cache_line (self : AppContext) (s : State) :
  current_locale self = default_locale self →
  GatheringsStudentHandler.get_list self s
  = GatheringsDashboardHandler.get_edit_gatherings self s ∧
  GatheringEntity._cache_key None = GatheringEntity._MEMCACHE_KEY ∧
  (∀ v, memcache s !! GatheringEntity._MEMCACHE_KEY = Some v →
     GatheringsStudentHandler.get_list self s
     = (inr (GatheringsRights.apply_rights self v), s) ∧
     GatheringEntity.get_gatherings self None s = (inr v, s)) ∧
  (memcache s !! GatheringEntity._MEMCACHE_KEY = None →
     GatheringsStudentHandler.get_list self s
     = (inr (GatheringsRights.apply_rights self
               (GatheringEntity.sort_desc (datastore s))),
        cache_filled GatheringEntity._MEMCACHE_KEY
                     (GatheringEntity.sort_desc (datastore s)) s)).
Proof.
  intros Hloc.
  assert (Hlist : GatheringsStudentHandler.get_list self s
                  = GatheringsDashboardHandler.get_edit_gatherings self s).
  { unfold GatheringsStudentHandler.get_list,
      GatheringsDashboardHandler.get_edit_gatherings.
    by rewrite bool_decide_eq_true_2. }
  split; [done|]. split; [done|]. rewrite Hlist.
  unfold GatheringsDashboardHandler.get_edit_gatherings. split.
  - intros v Hv. split; [|by apply get_gatherings_hit].
    by erewrite bind_inr by (by apply get_gatherings_hit).
  - intros Hmiss.
    by erewrite bind_inr by (by apply get_gatherings_miss_default).
Qed.

Lemma default_locale_shares_cache_line_witness :
  current_locale student_ctx = default_locale student_ctx ∧
  GatheringsStudentHandler.get_list student_ctx cold_state
  = GatheringsDashboardHandler.get_edit_gatherings student_ctx cold_state.
Proof.
  split; [done|].
  exact (proj1 (default_locale_shares_cache_line student_ctx cold_state eq_refl)).
Defined.

(** A locale other than the default gets a key of its own. *)
Lemma other_locale_own_cache_line (self : AppContext) (s : State) :
  current_locale self ≠ default_locale self →
  current_locale self ≠ "" →
  GatheringsStudentHandler.get_list self s
  = (items <~ GatheringEntity.get_gatherings self (Some (current_locale self)) ;;
     ret (GatheringsRights.apply_rights self items)) s ∧
  GatheringEntity._cache_key (Some (current_locale self))
  = "gatherings:" +:+ current_locale self.
Proof.
  intros Hne Hl. split; [|by apply cache_key_locale].
  unfold GatheringsStudentHandler.get_list.
  by rewrite bool_decide_eq_false_2.
Qed.

(** ** Cache coherence *)

Lemma coherent_cold (rows : list GatheringEntity) (n : Z) nws tr :
  cache_coherent (mkState rows n ∅ nws tr).
Proof. split; intros *; cbn; by rewrite lookup_empty. Qed.

Lemma coherent_after_write (s s' : State) :
  cache_coherent s →
  memcache s' = delete GatheringEntity._MEMCACHE_KEY (memcache s) →
  cache_coherent s'.
Proof.
  intros [_ Hsorted] Hm. split.
  - intros v. by rewrite Hm, lookup_delete_eq.
  - intros k v. rewrite Hm. intros Hv.
    apply lookup_delete_Some in Hv as [_ Hv]. by eapply Hsorted.
Qed.

Lemma coherent_purge (L : option string) (s : State) :
  cache_coherent s →
  cache_coherent (snd (GatheringEntity.purge_cache L s)).
Proof.
  intros [Hdef Hsorted]. rewrite purge_cache_run. split; cbn.
  - intros v Hv. apply lookup_delete_Some in Hv as [_ Hv]. by apply Hdef.
  - intros k v Hv. apply lookup_delete_Some in Hv as [_ Hv]. by eapply Hsorted.
Qed.

Lemma coherent_put (ctx : AppContext) (e : GatheringEntity) (s : State) :
  store_saved s → cache_coherent s →
  store_saved (snd (GatheringEntity.put ctx e s)) ∧
  cache_coherent (snd (GatheringEntity.put ctx e s)).
Proof.
  intros Hsaved Hcoh. unfold store_saved in *.
  destruct (key e) as [id|] eqn:Hk.
  - rewrite (entity_put_saved _ _ id) by done. cbn [snd]. split.
    + cbn [datastore]. unfold db.replace. case_match.
      * apply Forall_fmap. eapply Forall_impl; [exact Hsaved|].
        intros r Hr. cbn. case_match; [by rewrite Hk|done].
      * apply Forall_app. split; [done|]. constructor; [by rewrite Hk|done].
    + by eapply coherent_after_write.
  - rewrite entity_put_fresh by done. cbn [snd]. split.
    + cbn [datastore]. apply Forall_app. split; [done|].
      constructor; [by eexists|done].
    + by eapply coherent_after_write.
Qed.

Lemma coherent_delete (e : GatheringEntity) (id : Z) (s : State) :
  key e = Some id → store_saved s → cache_coherent s →
  store_saved (snd (GatheringEntity.delete e s)) ∧
  cache_coherent (snd (GatheringEntity.delete e s)).
Proof.
  intros Hk Hsaved Hcoh. rewrite (entity_delete_run _ id) by done.
  cbn [snd]. split.
  - unfold store_saved in *. cbn [datastore].
    apply Forall_forall. intros r Hr.
    apply list_elem_of_filter in Hr as [_ Hr].
    by eapply Forall_forall in Hsaved.
  - by eapply coherent_after_write.
Qed.

Lemma coherent_filled_default (s : State) :
  cache_coherent s →
  cache_coherent (cache_filled GatheringEntity._MEMCACHE_KEY
                    (GatheringEntity.sort_desc (datastore s)) s).
Proof.
  intros [Hdef Hsorted]. unfold cache_filled. split; cbn.
  - intros v. rewrite lookup_insert_eq. by intros [= <-].
  - intros k v Hv. apply lookup_insert_Some in Hv as [[_ <-]|[_ Hv]].
    + apply sort_desc_sorted.
    + by eapply Hsorted.
Qed.

Lemma coherent_filled_locale (l : string) (items : list GatheringEntity)
    (s : State) :
  l ≠ "" → sorted_desc items → cache_coherent s →
  cache_coherent (cache_filled (GatheringEntity._cache_key (Some l)) items s).
Proof.
  intros Hl Hitems [Hdef Hsorted]. unfold cache_filled. split; cbn.
  - intros v. rewrite lookup_insert_ne; [apply Hdef|].
    rewrite cache_key_locale by done. simpl. discriminate.
  - intros k v Hv. apply lookup_insert_Some in Hv as [[_ <-]|[_ Hv]].
    + done.
    + by eapply Hsorted.
Qed.

Lemma locale_truthy_cases (locale : option string) :
  (locale_truthy locale = false ∧
   GatheringEntity._cache_key locale = GatheringEntity._MEMCACHE_KEY) ∨
  (∃ l, locale = Some l ∧ l ≠ "" ∧ locale_truthy locale = true).
Proof.
  destruct locale as [l|]; [|by left].
  destruct (decide (l = "")) as [->|Hl]; [by left|].
  right. exists l. split; [done|]. split; [done|].
  unfold locale_truthy. by rewrite bool_decide_eq_false_2.
Qed.

(** ** Listing order *)

(** What a listing does in a coherent world, whether it returns or the
    overlay raises. *)
Lemma get_gatherings_coherent
    (ctx : AppContext) (locale : option string) (s : State) :
  store_saved s → cache_coherent s →
  ∃ r s',
    GatheringEntity.get_gatherings ctx locale s = (r, s') ∧
    datastore s' = datastore s ∧ cache_coherent s' ∧
    (locale_truthy locale = false →
       r = inr (GatheringEntity.sort_desc (datastore s))) ∧
    (∀ items, r = inr items →
       sorted_desc items ∧
       (memcache s !! GatheringEntity._cache_key locale = None →
          Forall2 same_frame (GatheringEntity.sort_desc (datastore s)) items)) ∧
    (is_Some (memcache s !! GatheringEntity._cache_key locale) ∨
     is_Some (translated_list ctx (GatheringEntity.sort_desc (datastore s))) →
       ∃ items, r = inr items) ∧
    (locale_truthy locale = true →
     memcache s !! GatheringEntity._cache_key locale = None →
     translated_list ctx (GatheringEntity.sort_desc (datastore s)) = None →
       r = inl UnicodeEncodeError ∧ s' = s).
Proof.
  intros Hsaved Hcoh. pose proof Hcoh as [Hdef Hsorted].
  destruct (locale_truthy_cases locale) as [[Hf Hkey]|(l & -> & Hl & Ht)].
  - destruct (memcache s !! GatheringEntity._MEMCACHE_KEY) as [v|] eqn:Hc.
    + exists (inr v), s.
      rewrite (get_gatherings_hit _ _ v) by (by rewrite Hkey).
      split; [done|]. split; [done|]. split; [done|].
      split; [intros _; f_equal; by apply Hdef|].
      split; [|split].
      * intros items [= <-]. split; [by eapply Hsorted|].
        by rewrite Hkey, Hc.
      * intros _. by exists v.
      * by rewrite Hf.
    + eexists _, _. rewrite get_gatherings_miss_default by done.
      split; [done|]. split; [done|].
      split; [by apply coherent_filled_default|]. split; [done|].
      split; [|split].
      * intros items [= <-]. split; [apply sort_desc_sorted|].
        intros _. apply Forall_Forall2_diag, Forall_forall.
        intros x _. by repeat split.
      * intros _. by eexists.
      * by rewrite Hf.
  - destruct (memcache s !! GatheringEntity._cache_key (Some l)) as [v|] eqn:Hc.
    + exists (inr v), s. rewrite (get_gatherings_hit _ _ v) by done.
      split; [done|]. split; [done|]. split; [done|].
      split; [by rewrite Ht|]. split; [|split].
      * intros items [= <-]. split; [by eapply Hsorted|done].
      * intros _. by exists v.
      * done.
    + rewrite get_gatherings_miss_locale by done.
      destruct (translated_list ctx (GatheringEntity.sort_desc (datastore s)))
        as [its|] eqn:Htr.
      * eexists _, _. split; [done|]. split; [done|].
        assert (Hits : sorted_desc its)
          by (eapply sorted_desc_translated; [done|apply sort_desc_sorted]).
        split; [by apply coherent_filled_locale|].
        split; [by rewrite Ht|]. split; [|split].
        -- intros items [= <-]. split; [done|].
           intros _. by eapply translated_list_frames.
        -- intros _. by exists its.
        -- done.
      * exists (inl UnicodeEncodeError), s.
        split; [done|]. split; [done|]. split; [done|].
        split; [by rewrite Ht|]. split; [|split].
        -- done.
        -- intros [[? [=]]|[? [=]]].
        -- done.
Qed.

Lemma entity_delete_unsaved (e : GatheringEntity) (s : State) :
  key e = None → GatheringEntity.delete e s = (inl NotSavedError, s).
Proof.
  intros Hk. unfold GatheringEntity.delete,
    TranslatableResourceGathering.key_for_entity. by rewrite Hk.
Qed.

(** Every reachable world is coherent, so the listing theorem below
    applies to all of them. *)
Lemma reachable_coherent (s : State) :
  reachable s → store_saved s ∧ cache_coherent s.
Proof.
  induction 1 as [rows n nws tr Hrows|ctx e s _ [Hs Hc]|e s _ [Hs Hc]
                 |ctx locale s _ [Hs Hc]|locale s _ [Hs Hc]].
  - split; [done|apply coherent_cold].
  - by apply coherent_put.
  - destruct (key e) as [id|] eqn:Hk.
    + by apply (coherent_delete e id).
    + by rewrite entity_delete_unsaved.
  - destruct (get_gatherings_coherent ctx locale s Hs Hc)
      as (r & s' & Hrun & Hstore & Hcoh & _).
    rewrite Hrun. cbn [snd]. split; [|done].
    unfold store_saved. by rewrite Hstore.
  - split; [|by apply coherent_purge]. by rewrite purge_cache_run.
Qed.

(** C6: in every coherent world the listing is in descending order of
    [start_time].  Without a locale it always returns, and what it
    returns is the stable descending sort of the store scan, a
    rearrangement of the stored records.  For a locale, whatever it
    returns is sorted, and computed afresh it is that same sequence with
    only the overlay applied; it does return whenever the partition is
    cached or every translated text can be turned into a byte string,
    and otherwise fails with [UnicodeEncodeError] and changes nothing.
    In particular three records with start times T1 > T2 > T3 are listed
    as [T1, T2, T3] from whichever of the six scan orders. *)
Theorem listing_sorted_by_start_time_desc
    (ctx : AppContext) (locale : option string) (s : State) :
  store_saved s → cache_coherent s →
  (locale_truthy locale = false →
     ∃ s',
       GatheringEntity.get_gatherings ctx locale s
       = (inr (GatheringEntity.sort_desc (datastore s)), s') ∧
       sorted_desc (GatheringEntity.sort_desc (datastore s)) ∧
       GatheringEntity.sort_desc (datastore s) ≡ₚ datastore s) ∧
  (∀ items s',
     GatheringEntity.get_gatherings ctx locale s = (inr items, s') →
     sorted_desc items ∧
     (memcache s !! GatheringEntity._cache_key locale = None →
        Forall2 same_frame (GatheringEntity.sort_desc (datastore s)) items)) ∧
  (is_Some (memcache s !! GatheringEntity._cache_key locale) ∨
   is_Some (translated_list ctx (GatheringEntity.sort_desc (datastore s))) →
     ∃ items s',
       GatheringEntity.get_gatherings ctx locale s = (inr items, s')) ∧
  (locale_truthy locale = true →
   memcache s !! GatheringEntity._cache_key locale = None →
   translated_list ctx (GatheringEntity.sort_desc (datastore s)) = None →
     GatheringEntity.get_gatherings ctx locale s
     = (inl UnicodeEncodeError, s)) ∧
  (∀ r1 r2 r3,
     (start_time r1 > start_time r2)%Z → (start_time r2 > start_time r3)%Z →
     datastore s ≡ₚ [r1; r2; r3] →
     (locale_truthy locale = false →
        ∃ s', GatheringEntity.get_gatherings ctx locale s
              = (inr [r1; r2; r3], s')) ∧
     (∀ items s',
        GatheringEntity.get_gatherings ctx locale s = (inr items, s') →
        memcache s !! GatheringEntity._cache_key locale = None →
        start_time <$> items
        = [start_time r1; start_time r2; start_time r3])).
Proof.
  intros Hsaved Hcoh.
  destruct (get_gatherings_coherent ctx locale s Hsaved Hcoh)
    as (r & s1 & Hrun & _ & _ & Hdef & Hret & Hok & Hfail).
  split; [|split; [|split; [|split]]].
  - intros Hf. exists s1. rewrite Hrun, (Hdef Hf).
    split; [done|]. split; [apply sort_desc_sorted|apply sort_desc_perm].
  - intros items s' Hitems. rewrite Hrun in Hitems.
    injection Hitems as -> _. by apply Hret.
  - intros Hcond. destruct (Hok Hcond) as [items ->]. by exists items, s1.
  - intros Ht Hmiss Hnone. rewrite Hrun.
    by destruct (Hfail Ht Hmiss Hnone) as [-> ->].
  - intros r1 r2 r3 H12 H23 Hperm.
    assert (Hthree : GatheringEntity.sort_desc (datastore s) = [r1; r2; r3]).
    { apply sort_desc_unique; [| |done].
      - cbn. repeat (apply NoDup_cons_2; [|]); [..|apply NoDup_nil_2];
          rewrite ?not_elem_of_cons; repeat split;
          try apply not_elem_of_nil; lia.
      - repeat constructor; unfold later_first; lia. }
    split.
    + intros Hf. exists s1. by rewrite Hrun, (Hdef Hf), Hthree.
    + intros items s' Hitems Hmiss. rewrite Hrun in Hitems.
      injection Hitems as -> _.
      destruct (Hret items eq_refl) as [_ Hfresh].
      specialize (Hfresh Hmiss). rewrite Hthree in Hfresh.
      apply Forall2_cons_inv_l in Hfresh as (i1 & t1 & F1 & Hfresh & ->).
      apply Forall2_cons_inv_l in Hfresh as (i2 & t2 & F2 & Hfresh & ->).
      apply Forall2_cons_inv_l in Hfresh as (i3 & t3 & F3 & Hfresh & ->).
      apply Forall2_nil_inv_l in Hfresh as ->.
      destruct F1 as (_ & E1 & _), F2 as (_ & E2 & _), F3 as (_ & E3 & _).
      cbn. congruence.
Qed.

Lemma listing_sorted_by_start_time_desc_witness :
  store_saved cold_state ∧ cache_coherent cold_state ∧
  (∃ s', GatheringEntity.get_gatherings editor_ctx None cold_state
         = (inr [g1; g2; g3], s')) ∧
  (∃ items s',
     GatheringEntity.get_gatherings student_de_ctx (Some "de") cold_state
     = (inr items, s')) ∧
  GatheringEntity.get_gatherings student_umlaut_ctx (Some "de") cold_state
  = (inl UnicodeEncodeError, cold_state).
Proof.
  assert (Hsaved : store_saved cold_state)
    by (repeat constructor; by eexists).
  assert (Hcoh : cache_coherent cold_state) by apply coherent_cold.
  split; [done|]. split; [done|]. split; [|split].
  - destruct (listing_sorted_by_start_time_desc editor_ctx None cold_state
                Hsaved Hcoh) as (_ & _ & _ & _ & Hthree).
    apply (Hthree g1 g2 g3); [done|done| |done].
    apply (Permutation_cons_append [g1; g2] g3).
  - destruct (listing_sorted_by_start_time_desc student_de_ctx (Some "de")
                cold_state Hsaved Hcoh) as (_ & _ & Hok & _).
    apply Hok. right. exists [g1_de; g2_de; g3_de]. by vm_compute.
  - destruct (listing_sorted_by_start_time_desc student_umlaut_ctx (Some "de")
                cold_state Hsaved Hcoh) as (_ & _ & _ & Hfail & _).
    apply Hfail; reflexivity.
Defined.

(** ** The translation overlay *)

Lemma mapM_key_for_entity_state (items : list GatheringEntity) (s : State) :
  snd (mapM TranslatableResourceGathering.key_for_entity items s) = s.
Proof.
  induction items as [|e items IH]; [done|].
  cbn [mapM]. unfold bind at 1.
  unfold TranslatableResourceGathering.key_for_entity at 1.
  destruct (key e); [|done]. cbn. unfold bind at 1.
  destruct (mapM _ items s) as [[x|ks] s1]; cbn in *; by subst.
Qed.

Lemma mapM_key_for_entity_returns (items : list GatheringEntity)
    (ks : list ResourceKey) (s s' : State) :
  mapM TranslatableResourceGathering.key_for_entity items s = (inr ks, s') →
  Forall (λ e, is_Some (key e)) items.
Proof.
  revert ks. induction items as [|e items IH]; intros ks; [constructor|].
  cbn [mapM]. unfold bind at 1.
  unfold TranslatableResourceGathering.key_for_entity at 1.
  destruct (key e) as [id|] eqn:Hk; [|done]. cbn. unfold bind at 1.
  pose proof (mapM_key_for_entity_state items s) as Hs.
  destruct (mapM _ items s) as [[x|ks'] s1]; [done|].
  cbn in Hs. subst s1. intros [= <- <-].
  constructor; [by eexists|by apply (IH ks')].
Qed.

Lemma translate_content_state (ctx : AppContext)
    (items : list GatheringEntity) (s : State) :
  snd (GatheringEntity._translate_content ctx items s) = s.
Proof.
  destruct (mapM TranslatableResourceGathering.key_for_entity items s)
    as [[x|ks] s1] eqn:Hkeys.
  - pose proof (mapM_key_for_entity_state items s) as Hs.
    rewrite Hkeys in Hs. cbn in Hs. subst s1.
    unfold GatheringEntity._translate_content.
    by erewrite bind_inl by exact Hkeys.
  - rewrite translate_content_run; [done|].
    by eapply mapM_key_for_entity_returns.
Qed.

Lemma translate_content_returns (ctx : AppContext)
    (items items' : list GatheringEntity) (s : State) :
  fst (GatheringEntity._translate_content ctx items s) = inr items' →
  translated_list ctx items = Some items'.
Proof.
  destruct (mapM TranslatableResourceGathering.key_for_entity items s)
    as [[x|ks] s1] eqn:Hkeys.
  - unfold GatheringEntity._translate_content.
    by erewrite bind_inl by exact Hkeys.
  - rewrite translate_content_run
      by (by eapply mapM_key_for_entity_returns).
    unfold overlay_outcome. cbn.
    destruct (translated_list ctx items); [|done]. by intros [= ->].
Qed.

Lemma translated_texts (ctx : AppContext) (item item' : GatheringEntity) :
  translated ctx item = Some item' →
  ∃ id, key item = Some id ∧
    let dto := translate_dto ctx
                 (mkResourceKey ResourceHandlerGathering.TYPE id)
                 (title item, html item) in
    str_result (fst dto) = Some (title item') ∧
    str_result (snd dto) = Some (html item').
Proof.
  unfold translated, overlay. destruct (key item) as [id|]; [|done].
  cbv zeta.
  destruct (str_result (fst _)) as [t|] eqn:Ht; [|done].
  destruct (str_result (snd _)) as [h|] eqn:Hh; [|done].
  intros [= <-]. exists id. by rewrite Ht, Hh.
Qed.

(** The read path never writes the datastore, not even when it fails. *)
Lemma get_gatherings_store
    (ctx : AppContext) (locale : option string) (s : State) :
  datastore (snd (GatheringEntity.get_gatherings ctx locale s)) = datastore s.
Proof.
  unfold GatheringEntity.get_gatherings, MemcacheManager.get.
  unfold bind at 1. destruct (memcache s !! _) as [v|]; [done|].
  unfold db.iter_all. unfold bind at 1. cbn beta iota.
  destruct (locale_truthy locale); [|done].
  unfold bind at 1.
  pose proof (translate_content_state ctx
                (GatheringEntity.sort_desc (datastore s)) s) as Hs.
  destruct (GatheringEntity._translate_content _ _ s) as [[x|its] s1];
    cbn in *; by subst.
Qed.

(** C7: the overlay never changes the world, whether it returns or
    raises.  What it returns is, item by item, the same record with
    [title] and [html] replaced by [str] of what the translation service
    left for them; [key], [start_time], [end_time] and [is_draft] are as
    before.  On saved items it returns exactly when every such text can
    be turned into a byte string, and raises [UnicodeEncodeError]
    otherwise.  A listing in a locale leaves the datastore as it was, so
    once the default partition is dropped the default listing is again
    the sorted scan of the stored, untranslated records. *)
Theorem overlay_rewrites_title_and_html_only
    (ctx : AppContext) (items : list GatheringEntity) (l : string) (s : State) :
  snd (GatheringEntity._translate_content ctx items s) = s ∧
  (∀ items',
     fst (GatheringEntity._translate_content ctx items s) = inr items' →
     Forall2 same_frame items items' ∧
     Forall2 (λ item item',
                ∃ id, key item = Some id ∧
                  let dto := translate_dto ctx
                               (mkResourceKey ResourceHandlerGathering.TYPE id)
                               (title item, html item) in
                  str_result (fst dto) = Some (title item') ∧
                  str_result (snd dto) = Some (html item'))
             items items') ∧
  (Forall (λ e, is_Some (key e)) items →
     (is_Some (translated_list ctx items) →
        ∃ items',
          GatheringEntity._translate_content ctx items s = (inr items', s)) ∧
     (translated_list ctx items = None →
        GatheringEntity._translate_content ctx items s
        = (inl UnicodeEncodeError, s))) ∧
  datastore (snd (GatheringEntity.get_gatherings ctx (Some l) s)) = datastore s ∧
  (let s1 := snd (GatheringEntity.get_gatherings ctx (Some l) s) in
   let s2 := snd (GatheringEntity.purge_cache None s1) in
   fst (GatheringEntity.get_gatherings ctx None s2)
   = inr (GatheringEntity.sort_desc (datastore s))).
Proof.
  split; [apply translate_content_state|].
  split; [|split; [|split]].
  - intros items' Hret. apply translate_content_returns in Hret.
    split; [by eapply translated_list_frames|].
    eapply Forall2_impl; [by apply translated_list_each|].
    intros a b. apply translated_texts.
  - intros Hsaved. rewrite translate_content_run by done.
    unfold overlay_outcome. split.
    + intros [items' ->]. by exists items'.
    + by intros ->.
  - apply get_gatherings_store.
  - cbv zeta. rewrite purge_cache_run. cbn [snd].
    rewrite get_gatherings_miss_default; [|done|apply lookup_delete_eq].
    cbn [fst datastore]. by rewrite get_gatherings_store.
Qed.

Lemma overlay_rewrites_title_and_html_only_witness :
  Forall (λ e, is_Some (key e)) [g1; g2] ∧
  GatheringEntity._translate_content student_de_ctx [g1; g2] cold_state
  = (inr [g1_de; g2_de], cold_state) ∧
  GatheringEntity._translate_content student_umlaut_ctx [g1; g2] cold_state
  = (inl UnicodeEncodeError, cold_state) ∧
  fst (GatheringEntity.get_gatherings student_de_ctx None
         (snd (GatheringEntity.purge_cache None
                 (snd (GatheringEntity.get_gatherings student_de_ctx
                         (Some "de") cold_state)))))
  = inr (GatheringEntity.sort_desc (datastore cold_state)).
Proof.
  assert (Hsaved : Forall (λ e, is_Some (key e)) [g1; g2])
    by (repeat constructor; by eexists).
  destruct (overlay_rewrites_title_and_html_only
              student_de_ctx [g1; g2] "de" cold_state)
    as (_ & _ & Hde & _ & Hfresh).
  destruct (overlay_rewrites_title_and_html_only
              student_umlaut_ctx [g1; g2] "de" cold_state)
    as (_ & _ & Humlaut & _).
  split; [done|]. split; [reflexivity|].
  split; [|exact Hfresh].
  apply (proj2 (Humlaut Hsaved)). reflexivity.
Defined.

(** * Further properties of the module *)

(** ** Lookups after a write *)

Lemma find_has_id_none (id : Z) (rows : list GatheringEntity) :
  (∀ r, r ∈ rows → key r ≠ Some id) →
  List.find (db.has_id id) rows = None.
Proof.
  induction rows as [|r rows IH]; intros Hnone; [done|]. cbn.
  unfold db.has_id at 1. rewrite bool_decide_eq_false_2.
  - apply IH. intros r' Hr'. apply Hnone. by right.
  - apply Hnone. by left.
Qed.

Lemma find_replace_same (id : Z) (e : GatheringEntity)
    (rows : list GatheringEntity) :
  key e = Some id →
  List.find (db.has_id id) (db.replace id e rows) = Some e.
Proof.
  intros Hk. unfold db.replace. destruct (existsb _ rows) eqn:Hex.
  - induction rows as [|r rows IH]; [done|]. cbn in *.
    destruct (db.has_id id r) eqn:Hr; cbn.
    + unfold db.has_id. by rewrite bool_decide_eq_true_2.
    + rewrite Hr. by apply IH.
  - induction rows as [|r rows IH]; cbn in *.
    + unfold db.has_id. by rewrite bool_decide_eq_true_2.
    + apply orb_false_iff in Hex as [Hr Hex]. rewrite Hr. by apply IH.
Qed.

Lemma has_id_other (id id' : Z) (r : GatheringEntity) :
  key r = Some id → id' ≠ id → db.has_id id' r = false.
Proof.
  intros Hk Hne. unfold db.has_id.
  rewrite bool_decide_eq_false_2; [done|]. congruence.
Qed.

Lemma find_replace_other (id id' : Z) (e : GatheringEntity)
    (rows : list GatheringEntity) :
  key e = Some id → id' ≠ id →
  List.find (db.has_id id') (db.replace id e rows)
  = List.find (db.has_id id') rows.
Proof.
  intros Hk Hne.
  assert (He : db.has_id id' e = false) by (by eapply has_id_other).
  unfold db.replace. destruct (existsb _ rows).
  - induction rows as [|r rows IH]; [done|]. cbn.
    destruct (db.has_id id r) eqn:Hr.
    + rewrite He. unfold db.has_id in Hr. apply bool_decide_eq_true in Hr.
      rewrite (has_id_other id id' r) by done. apply IH.
    + destruct (db.has_id id' r); [done|apply IH].
  - induction rows as [|r rows IH]; cbn; [by rewrite He|].
    destruct (db.has_id id' r); [done|apply IH].
Qed.

Lemma find_filter_other (id id' : Z) (rows : list GatheringEntity) :
  id' ≠ id →
  List.find (db.has_id id') (filter (λ r, key r ≠ Some id) rows)
  = List.find (db.has_id id') rows.
Proof.
  intros Hne. induction rows as [|r rows IH]; [done|].
  destruct (decide (key r = Some id)) as [Hr|Hr].
  - rewrite filter_cons_False by (intros ?; done). cbn.
    rewrite (has_id_other id id' r) by done. apply IH.
  - rewrite filter_cons_True by done. cbn.
    destruct (db.has_id id' r); [done|apply IH].
Qed.

Lemma find_app_last (id : Z) (e : GatheringEntity)
    (rows : list GatheringEntity) :
  db.has_id id e = false →
  List.find (db.has_id id) (rows ++ [e]) = List.find (db.has_id id) rows.
Proof.
  intros He. induction rows as [|r rows IH]; cbn; [by rewrite He|].
  destruct (db.has_id id r); [done|apply IH].
Qed.

Lemma get_run (id : Z) (s : State) :
  GatheringEntity.get (db.KId id) s
  = (inr (List.find (db.has_id id) (datastore s)), s).
Proof. reflexivity. Qed.

(** X1: a saved entity that is put is what [get] returns for its id right
    after, and the lookup of every other id is as it was before. *)
Theorem put_then_get (ctx : AppContext) (e : GatheringEntity) (id : Z) (s : State) :
  key e = Some id →
  let s' := snd (GatheringEntity.put ctx e s) in
  GatheringEntity.get (db.KId id) s' = (inr (Some e), s') ∧
  (∀ id', id' ≠ id →
     fst (GatheringEntity.get (db.KId id') s')
     = fst (GatheringEntity.get (db.KId id') s)).
Proof.
  intros Hk. cbv zeta. rewrite (entity_put_saved _ _ id) by done.
  cbn [snd]. split.
  - rewrite get_run. cbn [datastore]. by rewrite find_replace_same.
  - intros id' Hne. rewrite !get_run. cbn [datastore fst].
    by rewrite (find_replace_other id id').
Qed.

Lemma put_then_get_witness :
  key (set_title "Review (room 2)" g2) = Some 2 ∧
  fst (GatheringEntity.get (db.KId 2)
         (snd (GatheringEntity.put editor_ctx (set_title "Review (room 2)" g2)
                 cold_state)))
  = inr (Some (set_title "Review (room 2)" g2)).
Proof.
  split; [done|].
  destruct (put_then_get editor_ctx (set_title "Review (room 2)" g2) 2%Z
              cold_state eq_refl) as [Hget _].
  by rewrite Hget.
Defined.

(** X2: after a saved entity is deleted, [get] finds nothing under its
    id, and finds under every other id what it found before. *)
Theorem delete_then_get (e : GatheringEntity) (id : Z) (s : State) :
  key e = Some id →
  let s' := snd (GatheringEntity.delete e s) in
  GatheringEntity.get (db.KId id) s' = (inr None, s') ∧
  (∀ id', id' ≠ id →
     fst (GatheringEntity.get (db.KId id') s')
     = fst (GatheringEntity.get (db.KId id') s)).
Proof.
  intros Hk. cbv zeta. rewrite (entity_delete_run _ id) by done.
  cbn [snd]. split.
  - rewrite get_run. cbn [datastore]. rewrite find_has_id_none; [done|].
    intros r Hr. by apply list_elem_of_filter in Hr as [Hr _].
  - intros id' Hne. rewrite !get_run. cbn [datastore fst].
    by rewrite find_filter_other.
Qed.

Lemma delete_then_get_witness :
  key g2 = Some 2 ∧
  fst (GatheringEntity.get (db.KId 2) (snd (GatheringEntity.delete g2 cold_state)))
  = inr None.
Proof.
  split; [done|].
  destruct (delete_then_get g2 2%Z cold_state eq_refl) as [Hget _].
  by rewrite Hget.
Defined.

(** ** Who may write *)

(** X3: nobody but an editor changes anything.  Whatever write handler
    a caller without edit rights reaches, and whatever it is given, the
    world after the call is the world before it, and the answer is a
    refusal: a failed XSRF check on the two REST verbs that check the
    token first, a 401 otherwise. *)
Theorem non_editor_changes_nothing (self : AppContext) (c : WriteCall) (s : State) :
  GatheringsRights.can_edit self = false →
  snd (run_call self c s) = s ∧
  (fst (run_call self c s) = inr XsrfFailed ∨
   fst (run_call self c s) = inr (HttpError 401) ∨
   ∃ k, fst (run_call self c s)
        = inr (JsonResponse 401 (Msg "Access denied.") (PKey k))).
Proof.
  intros Hedit.
  destruct c as [request|k xsrf_ok|k set_draft| |k]; cbn [run_call].
  - unfold GatheringsItemRESTHandler.put.
    destruct (GatheringsItemRESTHandler.put_xsrf_ok request); cbn [negb].
    + rewrite Hedit. cbn. eauto.
    + cbn. eauto.
  - unfold GatheringsItemRESTHandler.delete, GatheringsRights.can_delete.
    destruct xsrf_ok; cbn [negb]; [rewrite Hedit|]; cbn; eauto.
  - unfold GatheringsItemRESTHandler.post_set_draft_status.
    rewrite Hedit. cbn. eauto.
  - unfold GatheringsDashboardHandler.post_add_gathering,
      GatheringsRights.can_add. rewrite Hedit. cbn. eauto.
  - unfold GatheringsDashboardHandler.post_delete_gathering,
      GatheringsRights.can_delete. rewrite Hedit. cbn. eauto.
Qed.

Lemma non_editor_changes_nothing_witness :
  GatheringsRights.can_edit student_ctx = false ∧
  snd (run_call student_ctx (CallRestPut keep_draft_request) cold_state)
  = cold_state.
Proof.
  split; [done|].
  exact (proj1 (non_editor_changes_nothing student_ctx
                  (CallRestPut keep_draft_request) cold_state eq_refl)).
Defined.

(** X4: adding a gathering from the dashboard never adds one.  A caller
    without rights is refused, an editor's call dies in [make]; either
    way nothing is stored, cached, announced or logged. *)
Theorem post_add_gathering_stores_nothing (self : AppContext) (s : State) :
  snd (GatheringsDashboardHandler.post_add_gathering self s) = s ∧
  fst (GatheringsDashboardHandler.post_add_gathering self s)
  = (if GatheringsRights.can_add self then inl (NameError "entitity")
     else inr (HttpError 401)).
Proof.
  destruct (GatheringsRights.can_add self) eqn:Hadd.
  - by rewrite post_add_gathering_raises.
  - unfold GatheringsDashboardHandler.post_add_gathering. by rewrite Hadd.
Qed.

(** ** The REST read *)

(** X5: the REST [get] is a pure read that never fails: it always
    answers, it leaves the world as it is, and a malformed key is
    answered like an unknown one, with 404. *)
Theorem rest_get_reads_only (self : AppContext) (k : db.ReqKey) (s : State) :
  (∃ status msg payload,
     GatheringsItemRESTHandler.get self k s
     = (inr (JsonResponse status msg payload), s)) ∧
  ((k = db.KBad ∨
    ∃ id, k = db.KId id ∧ List.find (db.has_id id) (datastore s) = None) →
   GatheringsItemRESTHandler.get self k s
   = (inr (JsonResponse 404 (Msg "Object not found.") (PKey k)), s)).
Proof.
  unfold GatheringsItemRESTHandler.get, except_BadKeyError,
    GatheringEntity.get, db.get. split.
  - destruct k as [|id]; unfold bind; cbn; [eauto|].
    destruct (List.find _ _) as [e|]; [|eauto].
    destruct (GatheringsRights.apply_rights self [e]); eauto.
  - intros [->|(id & -> & Hfind)]; unfold bind; cbn; [done|].
    by rewrite Hfind.
Qed.

Lemma rest_get_reads_only_witness :
  List.find (db.has_id 9) (datastore cold_state) = None ∧
  GatheringsItemRESTHandler.get student_ctx (db.KId 9) cold_state
  = (inr (JsonResponse 404 (Msg "Object not found.") (PKey (db.KId 9))),
     cold_state).
Proof.
  split; [done|].
  apply (proj2 (rest_get_reads_only student_ctx (db.KId 9) cold_state)).
  right. by exists 9%Z.
Defined.

(** X6: a stored gathering that is published, or any stored gathering
    when the caller is an editor, is returned as stored, with status
    200. *)
Theorem rest_get_returns_visible
    (self : AppContext) (id : Z) (entity : GatheringEntity) (s : State) :
  List.find (db.has_id id) (datastore s) = Some entity →
  GatheringsRights.can_edit self = true ∨ is_draft entity = false →
  GatheringsItemRESTHandler.get self (db.KId id) s
  = (inr (JsonResponse 200 (Msg "Success.") (PEntity entity)), s).
Proof.
  intros Hfind Hvis.
  unfold GatheringsItemRESTHandler.get, except_BadKeyError,
    GatheringEntity.get, db.get, bind, GatheringsRights.apply_rights.
  rewrite Hfind. cbn.
  destruct Hvis as [->| Hpub]; [done|].
  destruct (GatheringsRights.can_edit self); [done|]. cbn. by rewrite Hpub.
Qed.

Lemma rest_get_returns_visible_witness :
  List.find (db.has_id 2) (datastore cold_state) = Some g2 ∧
  is_draft g2 = false ∧
  GatheringsItemRESTHandler.get student_ctx (db.KId 2) cold_state
  = (inr (JsonResponse 200 (Msg "Success.") (PEntity g2)), cold_state).
Proof.
  split; [done|]. split; [done|].
  apply (rest_get_returns_visible student_ctx 2%Z g2 cold_state eq_refl).
  by right.
Defined.

(** ** What a listing does to the world *)

Lemma get_gatherings_effect
    (ctx : AppContext) (locale : option string)
    (items : list GatheringEntity) (s s1 : State) :
  GatheringEntity.get_gatherings ctx locale s = (inr items, s1) →
  memcache s1 !! GatheringEntity._cache_key locale = Some items ∧
  datastore s1 = datastore s ∧ next_id s1 = next_id s ∧ news s1 = news s ∧
  (memcache s !! GatheringEntity._cache_key locale = Some items ∧ s1 = s ∨
   memcache s !! GatheringEntity._cache_key locale = None ∧
   s1 = cache_filled (GatheringEntity._cache_key locale) items s).
Proof.
  unfold GatheringEntity.get_gatherings, MemcacheManager.get.
  unfold bind at 1.
  destruct (memcache s !! GatheringEntity._cache_key locale) as [v|] eqn:Hc.
  - intros [= <- <-]. repeat split; try done. by left.
  - unfold db.iter_all. unfold bind at 1. cbn beta iota.
    assert (Hfill : ∀ its,
      (MemcacheManager.set (GatheringEntity._cache_key locale) its ;;; ret its) s
      = (inr its, cache_filled (GatheringEntity._cache_key locale) its s))
      by done.
    destruct (locale_truthy locale).
    + unfold bind at 1.
      pose proof (translate_content_state ctx
                    (GatheringEntity.sort_desc (datastore s)) s) as Hs.
      destruct (GatheringEntity._translate_content _ _ s) as [[x|its] s2];
        cbn in Hs; subst s2; [done|].
      rewrite Hfill. intros [= <- <-]. unfold cache_filled. cbn.
      rewrite lookup_insert_eq. repeat split; try done. by right.
    + rewrite bind_ret_l. cbn beta. rewrite Hfill. intros [= <- <-].
      unfold cache_filled. cbn.
      rewrite lookup_insert_eq. repeat split; try done. by right.
Qed.

(** X7: a listing that succeeded is cached.  The same listing asked
    again, by whatever request, returns the same items without touching
    the world: no second scan is stored, nothing is translated anew.
    The first call itself changed at most memcache and the log; the
    store, the id allocator and the feed are as before. *)
Theorem listing_served_from_cache
    (ctx ctx' : AppContext) (locale : option string)
    (items : list GatheringEntity) (s s1 : State) :
  GatheringEntity.get_gatherings ctx locale s = (inr items, s1) →
  GatheringEntity.get_gatherings ctx' locale s1 = (inr items, s1) ∧
  datastore s1 = datastore s ∧ next_id s1 = next_id s ∧ news s1 = news s.
Proof.
  intros Hrun.
  apply get_gatherings_effect in Hrun as (Hhit & Hd & Hn & Hnews & _).
  split; [by apply get_gatherings_hit|done].
Qed.

Lemma listing_served_from_cache_witness :
  GatheringEntity.get_gatherings student_de_ctx (Some "de") cold_state
  = (inr [g1_de; g2_de; g3_de],
     cache_filled "gatherings:de" [g1_de; g2_de; g3_de] cold_state) ∧
  fst (GatheringEntity.get_gatherings editor_ctx (Some "de")
         (cache_filled "gatherings:de" [g1_de; g2_de; g3_de] cold_state))
  = inr [g1_de; g2_de; g3_de].
Proof.
  assert (Hrun :
    GatheringEntity.get_gatherings student_de_ctx (Some "de") cold_state
    = (inr [g1_de; g2_de; g3_de],
       cache_filled "gatherings:de" [g1_de; g2_de; g3_de] cold_state))
    by reflexivity.
  split; [done|].
  destruct (listing_served_from_cache student_de_ctx editor_ctx _ _ _ _ Hrun)
    as [Hagain _].
  by rewrite Hagain.
Defined.

(** X8: once the translation-changed signal for a locale has been
    handled, the next listing in that locale is built afresh, whatever
    the partition held before: the sorted scan of the store as it is
    now is run through the overlay of the asking request.  The listing
    is that scan with each record translated when every translated text
    can be turned into a byte string, and the request fails with
    [UnicodeEncodeError] otherwise. *)
Theorem translations_changed_then_listing
    (ctx : AppContext) (l : string) (s : State) :
  l ≠ "" → store_saved s →
  let s1 := snd (notify_translations_changed l s) in
  let scan := GatheringEntity.sort_desc (datastore s) in
  fst (GatheringEntity.get_gatherings ctx (Some l) s1)
  = match translated_list ctx scan with
    | Some items => inr items
    | None => inl UnicodeEncodeError
    end ∧
  (∀ items, translated_list ctx scan = Some items →
     Forall2 (λ e e', translated ctx e = Some e') scan items).
Proof.
  intros Hl Hsaved. cbv zeta. split; [|apply translated_list_each].
  unfold notify_translations_changed.
  rewrite purge_cache_run. cbn [snd].
  rewrite get_gatherings_miss_locale; [|done|done|apply lookup_delete_eq].
  cbn [datastore]. by destruct (translated_list ctx _).
Qed.

Lemma translations_changed_then_listing_witness :
  "de" ≠ "" ∧ store_saved warm_de_state ∧
  fst (GatheringEntity.get_gatherings student_de_ctx (Some "de")
         (snd (notify_translations_changed "de" warm_de_state)))
  = inr [g1_de; g2_de; g3_de] ∧
  fst (GatheringEntity.get_gatherings student_umlaut_ctx (Some "de")
         (snd (notify_translations_changed "de" warm_de_state)))
  = inl UnicodeEncodeError.
Proof.
  assert (Hsaved : store_saved warm_de_state)
    by (repeat constructor; by eexists).
  split; [done|]. split; [done|]. split.
  - exact (proj1 (translations_changed_then_listing student_de_ctx "de"
                    warm_de_state ltac:(done) Hsaved)).
  - exact (proj1 (translations_changed_then_listing student_umlaut_ctx "de"
                    warm_de_state ltac:(done) Hsaved)).
Defined.

(** ** Ties in the listing *)

Lemma insert_desc_filter (t : Z) (x : GatheringEntity) (l : list GatheringEntity) :
  filter (λ e, start_time e = t) (GatheringEntity.insert_desc x l)
  = filter (λ e, start_time e = t) (x :: l).
Proof.
  induction l as [|y l IH]; [done|]. cbn [GatheringEntity.insert_desc].
  destruct (Z.ltb_spec (start_time x) (start_time y)) as [Hlt|Hge]; [|done].
  destruct (decide (start_time y = t)) as [Hy|Hy].
  - rewrite filter_cons_True by done. rewrite IH.
    rewrite (filter_cons_False _ x) by lia.
    rewrite (filter_cons_False _ x) by lia.
    by rewrite filter_cons_True.
  - rewrite filter_cons_False by done. rewrite IH.
    destruct (decide (start_time x = t)) as [Hx|Hx].
    + rewrite !(filter_cons_True _ x) by done.
      by rewrite filter_cons_False.
    + rewrite !(filter_cons_False _ x) by done.
      by rewrite filter_cons_False.
Qed.

(** X9: the listing sort is stable.  Gatherings that start at the same
    time come out in the order the store scan yielded them. *)
Theorem sort_desc_stable (t : Z) (l : list GatheringEntity) :
  filter (λ e, start_time e = t) (GatheringEntity.sort_desc l)
  = filter (λ e, start_time e = t) l.
Proof.
  induction l as [|x l IH]; [done|]. cbn [GatheringEntity.sort_desc foldr].
  rewrite insert_desc_filter.
  fold (GatheringEntity.sort_desc l).
  destruct (decide (start_time x = t)).
  - rewrite !filter_cons_True by done. by rewrite IH.
  - by rewrite !filter_cons_False.
Qed.

(** ** The student page *)

Lemma sorted_desc_filter (P : GatheringEntity → Prop)
    `{!∀ x, Decision (P x)} (l : list GatheringEntity) :
  sorted_desc l → sorted_desc (filter P l).
Proof.
  unfold sorted_desc. intros Hs.
  apply Sorted_StronglySorted in Hs; [|apply _].
  apply StronglySorted_Sorted.
  induction Hs as [|x l Hs IH Hall]; [constructor|].
  destruct (decide (P x)).
  - rewrite filter_cons_True by done. constructor; [done|].
    apply Forall_forall. intros y Hy.
    apply list_elem_of_filter in Hy as [_ Hy].
    by eapply Forall_forall in Hall.
  - by rewrite filter_cons_False.
Qed.

(** X10: in the course's default locale, what a visitor without edit
    rights is shown on the student page is exactly the published part of
    the sorted scan of the store as it is now.  So every gathering shown
    is a stored record that is not a draft, no published record is
    missing, and the page is in descending order of start time.  The
    request leaves the store as it was. *)
Theorem student_page_lists_published_only (self : AppContext) (s : State) :
  GatheringsRights.can_edit self = false →
  current_locale self = default_locale self →
  store_saved s → cache_coherent s →
  ∃ items s',
    GatheringsStudentHandler.get_list self s = (inr items, s') ∧
    datastore s' = datastore s ∧
    items = filter (λ item, is_draft item = false)
                   (GatheringEntity.sort_desc (datastore s)) ∧
    (∀ item, item ∈ items ↔ item ∈ datastore s ∧ is_draft item = false) ∧
    sorted_desc items.
Proof.
  intros Hedit Hloc Hsaved Hcoh. unfold GatheringsStudentHandler.get_list.
  rewrite bool_decide_eq_true_2 by done.
  destruct (get_gatherings_coherent self None s Hsaved Hcoh)
    as (r & s' & Hrun & Hstore & _ & Hdef & _).
  rewrite (Hdef eq_refl) in Hrun.
  exists (GatheringsRights.apply_rights self
            (GatheringEntity.sort_desc (datastore s))), s'.
  split; [by erewrite bind_inr by exact Hrun|].
  split; [done|].
  unfold GatheringsRights.apply_rights. rewrite Hedit, allowed_loop_filter.
  cbn [app]. split; [done|]. split.
  - intros item. rewrite list_elem_of_filter, sort_desc_perm. tauto.
  - apply sorted_desc_filter, sort_desc_sorted.
Qed.

Lemma student_page_lists_published_only_witness :
  GatheringsRights.can_edit student_ctx = false ∧
  current_locale student_ctx = default_locale student_ctx ∧
  store_saved cold_state ∧ cache_coherent cold_state ∧
  fst (GatheringsStudentHandler.get_list student_ctx cold_state)
  = inr [g2; g3].
Proof.
  assert (Hsaved : store_saved cold_state)
    by (repeat constructor; by eexists).
  assert (Hcoh : cache_coherent cold_state) by apply coherent_cold.
  split; [done|]. split; [done|]. split; [done|]. split; [done|].
  destruct (student_page_lists_published_only student_ctx cold_state
              eq_refl eq_refl Hsaved Hcoh)
    as (items & s' & Hrun & _ & Hitems & _).
  rewrite Hrun. cbn [fst]. f_equal. exact Hitems.
Defined.

(** ** Resource accessors *)

Lemma key_unique (l : list GatheringEntity) (a b : GatheringEntity) :
  NoDup (key <$> l) → a ∈ l → b ∈ l → key a = key b → a = b.
Proof.
  intros Hnd Ha Hb Hk.
  apply list_elem_of_lookup in Ha as [i Hi], Hb as [j Hj].
  assert (i = j) as ->; [|congruence].
  apply (NoDup_lookup _ i j (key a) Hnd).
  - by rewrite list_lookup_fmap, Hi.
  - rewrite list_lookup_fmap, Hj. cbn. by rewrite Hk.
Qed.

Lemma find_unique (id : Z) (l : list GatheringEntity) (e : GatheringEntity) :
  NoDup (key <$> l) → e ∈ l → key e = Some id →
  List.find (db.has_id id) l = Some e.
Proof.
  intros Hnd He Hk.
  destruct (List.find (db.has_id id) l) as [e'|] eqn:Hfind.
  - apply find_has_id in Hfind as [Hk' He'].
    f_equal. apply (key_unique l); [done..|congruence].
  - eapply find_none in Hfind; [|by apply list_elem_of_In].
    unfold db.has_id in Hfind. by rewrite bool_decide_eq_true_2 in Hfind.
Qed.

Lemma find_perm (id : Z) (l l' : list GatheringEntity) :
  NoDup (key <$> l) → l ≡ₚ l' →
  List.find (db.has_id id) l' = List.find (db.has_id id) l.
Proof.
  intros Hnd Hperm.
  assert (Hnd' : NoDup (key <$> l')) by (by rewrite <- Hperm).
  destruct (List.find (db.has_id id) l) as [e|] eqn:Hfind.
  - apply find_has_id in Hfind as [Hk He].
    apply find_unique; [done| |done]. by rewrite <- Hperm.
  - apply find_has_id_none. intros r Hr Hk.
    eapply find_none in Hfind; [|apply list_elem_of_In; by rewrite Hperm].
    unfold db.has_id in Hfind. by rewrite bool_decide_eq_true_2 in Hfind.
Qed.

Lemma find_by_id_saved (id : Z) (l : list GatheringEntity) (s : State) :
  Forall (λ e, is_Some (key e)) l →
  find_by_id id l s = (inr (List.find (db.has_id id) l), s).
Proof.
  induction 1 as [|a l [i Hi] _ IH]; [done|].
  cbn. rewrite Hi. unfold db.has_id at 1. rewrite Hi.
  destruct (decide (i = id)) as [->|Hne].
  - by rewrite !bool_decide_eq_true_2.
  - rewrite !bool_decide_eq_false_2 by congruence. apply IH.
Qed.

(** A listing with no locale reads nothing of its request. *)
Lemma get_gatherings_default_any_request
    (ctx ctx' : AppContext) (locale : option string) (s : State) :
  locale_truthy locale = false →
  GatheringEntity.get_gatherings ctx locale s
  = GatheringEntity.get_gatherings ctx' locale s.
Proof.
  intros Hf. unfold GatheringEntity.get_gatherings. by rewrite Hf.
Qed.

Lemma find_translated (ctx : AppContext) (id : Z)
    (l l' : list GatheringEntity) :
  translated_list ctx l = Some l' →
  List.find (db.has_id id) l'
  = List.find (db.has_id id) l ≫= translated ctx.
Proof.
  revert l'. induction l as [|a l IH]; intros l'; cbn [translated_list].
  - by intros [= <-].
  - destruct (translated ctx a) as [a'|] eqn:Ha; [|done].
    destruct (translated_list ctx l) as [rest|]; [|done].
    intros [= <-]. cbn [List.find].
    assert (Hk : db.has_id id a' = db.has_id id a).
    { unfold db.has_id.
      by destruct (translated_same_frame ctx a a' Ha) as [<- _]. }
    rewrite Hk. destruct (db.has_id id a); [by cbn|by apply IH].
Qed.

Lemma saved_translated (ctx : AppContext) (l l' : list GatheringEntity) :
  translated_list ctx l = Some l' →
  Forall (λ e, is_Some (key e)) l →
  Forall (λ e, is_Some (key e)) l'.
Proof.
  intros Hl. apply translated_list_frames in Hl.
  induction Hl as [|a b l l' [Hk _] _ IH]; [done|].
  intros Hsaved. apply Forall_cons in Hsaved as [Ha Hsaved].
  constructor; [by rewrite <- Hk|by apply IH].
Qed.

(** X11: the title the i18n dashboard shows for a gathering resource.
    When the request belongs to no course, or is in the course's default
    locale, it is the stored title of the gathering with that id, and
    nothing when no such gathering is stored.  In another locale, on a
    fresh listing, every stored gathering is translated first: the title
    is that of the gathering with that id as the overlay translates it
    when all translated texts can be turned into byte strings, and the
    request fails with [UnicodeEncodeError] otherwise. *)
Theorem i18n_title_of_resource
    (app_context : option AppContext) (id : Z) (s : State) :
  store_saved s → cache_coherent s → NoDup (key <$> datastore s) →
  let stored := List.find (db.has_id id) (datastore s) in
  (match app_context with
   | Some course => current_locale course = default_locale course
   | None => True
   end →
     fst (get_i18n_title app_context id s) = inr (title <$> stored)) ∧
  (∀ course,
     app_context = Some course →
     current_locale course ≠ default_locale course →
     current_locale course ≠ "" →
     memcache s !! GatheringEntity._cache_key (Some (current_locale course))
     = None →
     fst (get_i18n_title app_context id s)
     = match translated_list course
               (GatheringEntity.sort_desc (datastore s)) with
       | Some _ => inr (title <$> (stored ≫= translated course))
       | None => inl UnicodeEncodeError
       end).
Proof.
  intros Hsaved Hcoh Hnd. cbv zeta.
  assert (Hsorted_saved :
    Forall (λ e, is_Some (key e)) (GatheringEntity.sort_desc (datastore s)))
    by (by rewrite sort_desc_perm).
  assert (Hfind :
    List.find (db.has_id id) (GatheringEntity.sort_desc (datastore s))
    = List.find (db.has_id id) (datastore s)).
  { apply find_perm; [done|]. by rewrite sort_desc_perm. }
  unfold get_i18n_title. split.
  - intros Hloc.
    assert (Hlocale :
      match app_context with
      | Some course =>
          if bool_decide (default_locale course ≠ current_locale course)
          then Some (current_locale course) else None
      | None => None
      end = None).
    { destruct app_context as [course|]; [|done].
      by rewrite bool_decide_eq_false_2 by (intros Hne; by apply Hne). }
    rewrite Hlocale.
    destruct (get_gatherings_coherent (default no_course app_context)
                None s Hsaved Hcoh)
      as (r & s' & Hrun & _ & _ & Hdef & _).
    rewrite (Hdef eq_refl) in Hrun.
    erewrite bind_inr by exact Hrun.
    erewrite bind_inr by (by apply find_by_id_saved).
    cbn. by rewrite Hfind.
  - intros course -> Hloc Hl Hmiss.
    rewrite bool_decide_eq_true_2 by done.
    change (default no_course (Some course)) with course.
    unfold bind at 1.
    rewrite get_gatherings_miss_locale by done.
    destruct (translated_list course _) as [items|] eqn:Hitems; [|done].
    erewrite bind_inr
      by (apply find_by_id_saved; by eapply saved_translated).
    cbn. by rewrite (find_translated _ _ _ _ Hitems), Hfind.
Qed.

Lemma i18n_title_of_resource_witness :
  store_saved cold_state ∧ cache_coherent cold_state ∧
  NoDup (key <$> datastore cold_state) ∧
  fst (get_i18n_title None 2 cold_state) = inr (Some "Review") ∧
  fst (get_i18n_title (Some editor_ctx) 2 cold_state) = inr (Some "Review") ∧
  fst (get_i18n_title (Some student_de_ctx) 2 cold_state)
  = inr (Some "[de] Review") ∧
  fst (get_i18n_title (Some student_umlaut_ctx) 2 cold_state)
  = inl UnicodeEncodeError.
Proof.
  assert (Hsaved : store_saved cold_state)
    by (repeat constructor; by eexists).
  assert (Hcoh : cache_coherent cold_state) by apply coherent_cold.
  assert (Hnd : NoDup (key <$> datastore cold_state)).
  { apply (bool_decide_unpack _). by vm_compute. }
  split; [done|]. split; [done|]. split; [done|].
  split; [|split; [|split]].
  - exact (proj1 (i18n_title_of_resource None 2 cold_state
                    Hsaved Hcoh Hnd) I).
  - exact (proj1 (i18n_title_of_resource (Some editor_ctx) 2 cold_state
                    Hsaved Hcoh Hnd) eq_refl).
  - exact (proj2 (i18n_title_of_resource (Some student_de_ctx) 2 cold_state
                    Hsaved Hcoh Hnd)
             student_de_ctx eq_refl ltac:(done) ltac:(done) eq_refl).
  - exact (proj2 (i18n_title_of_resource (Some student_umlaut_ctx) 2
                    cold_state Hsaved Hcoh Hnd)
             student_umlaut_ctx eq_refl ltac:(done) ltac:(done) eq_refl).
Defined.

Lemma mapM_pairs (items : list GatheringEntity) (s : State) :
  Forall (λ e, is_Some (key e)) items →
  ∃ pairs,
    mapM (λ gathering,
            k <~ TranslatableResourceGathering.key_for_entity gathering ;;
            ret (gathering, k)) items s = (inr pairs, s) ∧
    fst <$> pairs = items ∧
    Forall (λ p, key (fst p) = Some (rk_id (snd p)) ∧
                 rk_type (snd p) = ResourceHandlerGathering.TYPE) pairs.
Proof.
  induction 1 as [|a items [i Hi] _ (pairs & Hrun & Hfst & Hall)].
  - exists []. by repeat split.
  - exists ((a, mkResourceKey ResourceHandlerGathering.TYPE i) :: pairs).
    split; [|split].
    + cbn [mapM].
      erewrite bind_inr; cycle 1.
      { erewrite bind_inr; [reflexivity|].
        unfold TranslatableResourceGathering.key_for_entity. by rewrite Hi. }
      cbn beta. by erewrite bind_inr by exact Hrun.
    + cbn. by rewrite Hfst.
    + constructor; [done|done].
Qed.

(** X12: the translatable resources of the course are the gatherings of
    the default listing, each paired with the resource key of type
    ['gathering'] that carries its own id; with unique ids, looking such a
    key up again through the resource handler gives back the gathering
    it was listed with. *)
Theorem resources_and_keys_round_trip (ctx : AppContext) (s : State) :
  store_saved s → cache_coherent s →
  ∃ pairs s',
    get_resources_and_keys ctx s = (inr pairs, s') ∧
    fst <$> pairs = GatheringEntity.sort_desc (datastore s) ∧
    Forall (λ p, key (fst p) = Some (rk_id (snd p)) ∧
                 rk_type (snd p) = ResourceHandlerGathering.TYPE) pairs ∧
    (NoDup (key <$> datastore s) →
     ∀ p, p ∈ pairs →
       get_resource (rk_id (snd p)) s' = (inr (Some (fst p)), s')).
Proof.
  intros Hsaved Hcoh.
  destruct (get_gatherings_coherent ctx None s Hsaved Hcoh)
    as (r & s' & Hrun & Hstore & _ & Hdef & _).
  rewrite (Hdef eq_refl) in Hrun.
  assert (Hsorted_saved :
    Forall (λ e, is_Some (key e)) (GatheringEntity.sort_desc (datastore s)))
    by (by rewrite sort_desc_perm).
  destruct (mapM_pairs _ s' Hsorted_saved) as (pairs & Hpairs & Hfst & Hall).
  exists pairs, s'. split; [|split; [done|split; [done|]]].
  - unfold get_resources_and_keys. by erewrite bind_inr by exact Hrun.
  - intros Hnd p Hp. unfold get_resource. rewrite get_run, Hstore.
    do 2 f_equal.
    eapply Forall_forall in Hall as [Hk _]; [|exact Hp].
    apply find_unique; [done| |done].
    rewrite <- (sort_desc_perm (datastore s)), <- Hfst.
    apply list_elem_of_fmap. by exists p.
Qed.

Lemma resources_and_keys_round_trip_witness :
  store_saved cold_state ∧ cache_coherent cold_state ∧
  ∃ pairs s',
    get_resources_and_keys editor_ctx cold_state = (inr pairs, s') ∧
    fst <$> pairs = [g1; g2; g3].
Proof.
  assert (Hsaved : store_saved cold_state)
    by (repeat constructor; by eexists).
  assert (Hcoh : cache_coherent cold_state) by apply coherent_cold.
  split; [done|]. split; [done|].
  destruct (resources_and_keys_round_trip editor_ctx cold_state Hsaved Hcoh)
    as (pairs & s' & Hrun & Hfst & _).
  exists pairs, s'. split; [done|]. by rewrite Hfst.
Defined.

(** ** Setting the flag, and setting it again *)

(** X13: a successful draft-status call changes the flag of the one
    gathering and nothing else in the store, and it is idempotent on the
    feed: the same call repeated right away adds no further news item
    and stores the same entity. *)
Theorem set_draft_status_sets_flag_once
    (handler : AppContext) (id : Z) (entity : GatheringEntity)
    (set_draft : bool) (s : State) :
  GatheringsRights.can_edit handler = true →
  List.find (db.has_id id) (datastore s) = Some entity →
  let arg := if set_draft then "1" else "0" in
  let s1 := snd (GatheringsItemRESTHandler.post_set_draft_status
                   handler (db.KId id) arg s) in
  let s2 := snd (GatheringsItemRESTHandler.post_set_draft_status
                   handler (db.KId id) arg s1) in
  List.find (db.has_id id) (datastore s1) = Some (set_is_draft set_draft entity) ∧
  (∀ id', id' ≠ id →
     List.find (db.has_id id') (datastore s1)
     = List.find (db.has_id id') (datastore s)) ∧
  news s2 = news s1 ∧
  List.find (db.has_id id) (datastore s2) = Some (set_is_draft set_draft entity).
Proof.
  intros Hedit Hfind. pose proof (find_has_id _ _ _ Hfind) as [Hk _].
  cbv zeta.
  rewrite (post_set_draft_status_run handler id entity set_draft s) by done.
  cbn [snd].
  set (s1 := mkState _ _ _ _ _).
  assert (Hfind1 : List.find (db.has_id id) (datastore s1)
                   = Some (set_is_draft set_draft entity))
    by (by apply find_replace_same).
  rewrite (post_set_draft_status_run handler id _ set_draft s1) by done.
  cbn [snd datastore news]. split; [done|]. split; [|split].
  - intros id' Hne. by apply find_replace_other.
  - subst s1. cbn [news is_draft set_is_draft].
    destruct set_draft; cbn; by rewrite app_nil_r.
  - by apply find_replace_same.
Qed.

Lemma set_draft_status_sets_flag_once_witness :
  GatheringsRights.can_edit editor_ctx = true ∧
  List.find (db.has_id 1) (datastore cold_state) = Some g1 ∧
  List.find (db.has_id 1)
    (datastore (snd (GatheringsItemRESTHandler.post_set_draft_status
                       editor_ctx (db.KId 1) "0" cold_state)))
  = Some (set_is_draft false g1).
Proof.
  split; [done|]. split; [done|].
  exact (proj1 (set_draft_status_sets_flag_once editor_ctx 1 g1 false
                  cold_state eq_refl eq_refl)).
Defined.

(** ** Saving through the REST handler *)

Lemma update_property_const d name (e : GatheringEntity) :
  ∃ r, ∀ s, update_property d name e s = (r, s).
Proof.
  unfold update_property, assign_property.
  destruct (d !! name) as [v|]; [|by eexists].
  repeat case_bool_decide; destruct v; by eexists.
Qed.

Lemma dict_to_entity_const (e : GatheringEntity) d :
  ∃ r, ∀ s, dict_to_entity e d s = (r, s).
Proof.
  unfold dict_to_entity.
  destruct (update_property_const d "title" e) as (r1 & H1).
  destruct r1 as [x|e1];
    [exists (inl x); intros s; by erewrite bind_inl by apply H1|].
  destruct (update_property_const d "html" e1) as (r2 & H2).
  destruct r2 as [x|e2];
    [exists (inl x); intros s; erewrite bind_inr by apply H1;
     by erewrite bind_inl by apply H2|].
  destruct (update_property_const d "start_time" e2) as (r3 & H3).
  destruct r3 as [x|e3];
    [exists (inl x); intros s; erewrite bind_inr by apply H1;
     erewrite bind_inr by apply H2; by erewrite bind_inl by apply H3|].
  destruct (update_property_const d "end_time" e3) as (r4 & H4).
  destruct r4 as [x|e4];
    [exists (inl x); intros s; erewrite bind_inr by apply H1;
     erewrite bind_inr by apply H2; erewrite bind_inr by apply H3;
     by erewrite bind_inl by apply H4|].
  destruct (update_property_const d "is_draft" e4) as (r5 & H5).
  exists r5. intros s. erewrite bind_inr by apply H1.
  erewrite bind_inr by apply H2. erewrite bind_inr by apply H3.
  erewrite bind_inr by apply H4. apply H5.
Qed.

(** X14: a save that goes through stores the updated entity under the id
    it had.  The ['key'] entry is taken out of the update before it is
    applied, so the identifier cannot be overwritten; afterwards the
    lookup of that id gives the updated entity, every other lookup is as
    before, and the default partition of the cache is gone. *)
Theorem rest_put_saves_under_same_id
    (self : AppContext) (request : GatheringsItemRESTHandler.PutRequest)
    (id : Z) (entity entity' : GatheringEntity) (kv : PyVal) (s : State) :
  GatheringsItemRESTHandler.put_xsrf_ok request = true →
  GatheringsRights.can_edit self = true →
  GatheringsItemRESTHandler.put_key request = db.KId id →
  List.find (db.has_id id) (datastore s) = Some entity →
  GatheringsItemRESTHandler.put_update_dict request !! "key" = Some kv →
  dict_to_entity entity
    (delete "key" (GatheringsItemRESTHandler.put_update_dict request)) s
  = (inr entity', s) →
  let r := GatheringsItemRESTHandler.put self request s in
  fst r = inr (JsonResponse 200 (Msg "Saved.") PNone) ∧
  key entity' = Some id ∧
  List.find (db.has_id id) (datastore (snd r)) = Some entity' ∧
  (∀ id', id' ≠ id →
     List.find (db.has_id id') (datastore (snd r))
     = List.find (db.has_id id') (datastore s)) ∧
  memcache (snd r) = delete GatheringEntity._MEMCACHE_KEY (memcache s).
Proof.
  intros Hx Hedit Hkey Hfind Hd Hupd.
  pose proof (find_has_id _ _ _ Hfind) as [Hk _].
  assert (Hk' : key entity' = Some id).
  { destruct (dict_to_entity_run entity
                (delete "key" (GatheringsItemRESTHandler.put_update_dict request))
                s) as (r & Hr & Hkey').
    rewrite Hupd in Hr. injection Hr as <-. by rewrite (Hkey' _ eq_refl). }
  assert (Hconst : ∀ s0, dict_to_entity entity
            (delete "key" (GatheringsItemRESTHandler.put_update_dict request)) s0
            = (inr entity', s0)).
  { destruct (dict_to_entity_const entity
                (delete "key" (GatheringsItemRESTHandler.put_update_dict request)))
      as (r & Hr).
    intros s0. rewrite Hr. rewrite Hr in Hupd. by injection Hupd as ->. }
  assert (Htail : ∀ s0,
    (update_dict <~ dict_del
        (GatheringsItemRESTHandler.put_update_dict request) "key" ;;
     entity0 <~ dict_to_entity entity update_dict ;;
     GatheringEntity.put self entity0 ;;;
     ret (JsonResponse 200 (Msg "Saved.") PNone)) s0
    = (inr (JsonResponse 200 (Msg "Saved.") PNone),
       snd (GatheringEntity.put self entity' s0))).
  { intros s0. unfold dict_del. rewrite Hd, bind_ret_l. cbn beta.
    erewrite bind_inr by apply Hconst.
    rewrite (entity_put_saved _ _ id) by done.
    by erewrite bind_inr by (by apply entity_put_saved). }
  cbv zeta. unfold GatheringsItemRESTHandler.put.
  rewrite Hx, Hedit, Hkey. cbn [negb].
  erewrite bind_inr by apply get_run. rewrite Hfind.
  assert (Hfinal : ∃ s0,
    datastore s0 = datastore s ∧ memcache s0 = memcache s ∧
    (((if is_draft entity &&
          negb (truthy (dict_get
                  (GatheringsItemRESTHandler.put_update_dict request)
                  "set_draft"))
       then item <~ GatheringsItemRESTHandler.news_item_for entity ;;
            CourseNewsDao.add_news_item item
       else ret ()) ;;;
      update_dict <~ dict_del
          (GatheringsItemRESTHandler.put_update_dict request) "key" ;;
      entity0 <~ dict_to_entity entity update_dict ;;
      GatheringEntity.put self entity0 ;;;
      ret (JsonResponse 200 (Msg "Saved.") PNone)) s
     = (inr (JsonResponse 200 (Msg "Saved.") PNone),
        snd (GatheringEntity.put self entity' s0)))).
  { destruct (is_draft entity && negb _).
    - eexists. split; [|split]; cycle 2.
      + erewrite bind_inr; cycle 1.
        { erewrite bind_inr by (by apply news_item_for_saved). reflexivity. }
        apply Htail.
      + done.
      + done.
    - exists s. split; [done|]. split; [done|].
      rewrite bind_ret_l. apply Htail. }
  destruct Hfinal as (s0 & Hd0 & Hm0 & ->).
  rewrite (entity_put_saved _ _ id) by done.
  cbn [fst snd datastore memcache]. rewrite Hd0, Hm0.
  split; [done|]. split; [done|]. split; [by apply find_replace_same|].
  split; [|done]. intros id' Hne. by apply find_replace_other.
Qed.

Lemma rest_put_saves_under_same_id_witness :
  List.find (db.has_id 1) (datastore cold_state) = Some g1 ∧
  keep_draft_dict !! "key" = Some (VStr "1") ∧
  List.find (db.has_id 1)
    (datastore (snd (GatheringsItemRESTHandler.put editor_ctx
                       keep_draft_request cold_state)))
  = Some (mkGathering (Some 1) "Kickoff (moved)" 400 2200 "<p>kickoff</p>" true).
Proof.
  split; [done|]. split; [by vm_compute|].
  refine (proj1 (proj2 (proj2
    (rest_put_saves_under_same_id editor_ctx keep_draft_request 1 g1
       (mkGathering (Some 1) "Kickoff (moved)" 400 2200 "<p>kickoff</p>" true)
       (VStr "1") cold_state eq_refl eq_refl eq_refl eq_refl _ _)))).
  - by vm_compute.
  - by vm_compute.
Defined.

(** ** Deleting through the handlers *)

(** X15: the REST delete and the dashboard delete do the same thing to the
    world.  For a stored gathering both leave one and the same world, in
    which the id is no longer found, no news item names it and the
    default partition is dropped; for an unknown id both leave the world
    alone, the REST verb answering 404 and the dashboard redirecting to
    the list as usual. *)
Theorem delete_handlers_agree (self : AppContext) (id : Z) (s : State) :
  GatheringsRights.can_edit self = true →
  (∀ entity, List.find (db.has_id id) (datastore s) = Some entity →
     ∃ s',
       GatheringsItemRESTHandler.delete self (db.KId id) true s
       = (inr (JsonResponse 200 (Msg "Deleted.") PNone), s') ∧
       GatheringsDashboardHandler.post_delete_gathering self (db.KId id) s
       = (inr RedirectList, s') ∧
       List.find (db.has_id id) (datastore s') = None ∧
       (∀ it, it ∈ news s' →
          resource_key it ≠ mkResourceKey ResourceHandlerGathering.TYPE id) ∧
       memcache s' !! GatheringEntity._MEMCACHE_KEY = None) ∧
  (List.find (db.has_id id) (datastore s) = None →
     GatheringsItemRESTHandler.delete self (db.KId id) true s
     = (inr (JsonResponse 404 (Msg "Object not found.") (PKey (db.KId id))), s) ∧
     GatheringsDashboardHandler.post_delete_gathering self (db.KId id) s
     = (inr RedirectList, s)).
Proof.
  intros Hedit.
  unfold GatheringsItemRESTHandler.delete,
    GatheringsDashboardHandler.post_delete_gathering,
    GatheringsRights.can_delete.
  rewrite Hedit. cbn [negb]. split.
  - intros entity Hfind. pose proof (find_has_id _ _ _ Hfind) as [Hk _].
    eexists. split; [|split; [|split; [|split]]].
    + erewrite bind_inr by apply get_run. rewrite Hfind.
      by erewrite bind_inr by (by apply entity_delete_run).
    + erewrite bind_inr by apply get_run. rewrite Hfind.
      by erewrite bind_inr by (by apply entity_delete_run).
    + cbn [datastore]. apply find_has_id_none.
      intros r Hr. by apply list_elem_of_filter in Hr as [Hr _].
    + cbn [news]. intros it Hit.
      by apply list_elem_of_filter in Hit as [Hit _].
    + cbn [memcache]. apply lookup_delete_eq.
  - intros Hfind. split.
    + erewrite bind_inr by apply get_run. by rewrite Hfind.
    + erewrite bind_inr by apply get_run. by rewrite Hfind.
Qed.

Lemma delete_handlers_agree_witness :
  GatheringsRights.can_edit editor_ctx = true ∧
  List.find (db.has_id 9) (datastore cold_state) = None ∧
  GatheringsDashboardHandler.post_delete_gathering editor_ctx (db.KId 9)
    cold_state
  = (inr RedirectList, cold_state).
Proof.
  split; [done|]. split; [done|].
  exact (proj2 (proj2 (delete_handlers_agree editor_ctx 9 cold_state eq_refl)
                  eq_refl)).
Defined.

(** ** The feed names stored gatherings only *)

Lemma stored_replace (id0 id : Z) (e : GatheringEntity)
    (rows : list GatheringEntity) :
  key e = Some id → stored id0 rows → stored id0 (db.replace id e rows).
Proof.
  intros Hk (r & Hr & Hk0). unfold db.replace.
  destruct (existsb _ rows) eqn:Hex.
  - destruct (db.has_id id r) eqn:Hid.
    + exists e. split.
      * apply list_elem_of_fmap. exists r. by rewrite Hid.
      * unfold db.has_id in Hid. apply bool_decide_eq_true in Hid. congruence.
    + exists r. split; [|done].
      apply list_elem_of_fmap. exists r. by rewrite Hid.
  - exists r. split; [|done]. apply elem_of_app. by left.
Qed.

Lemma stored_find (id : Z) (rows : list GatheringEntity) (e : GatheringEntity) :
  List.find (db.has_id id) rows = Some e → stored id rows.
Proof. intros H. apply find_has_id in H as [Hk He]. by exists e. Qed.

Lemma feed_step_live (s s' : State) :
  news_live s → feed_step s s' → news_live s'.
Proof.
  intros Hlive [[Hn Hd]|[(id & items & e & Hst & Hk & Hitems & Hn & Hd)
                        |(id & Hn & Hd)]] it Hit.
  - rewrite Hn in Hit. rewrite Hd. by apply Hlive.
  - assert (Hkeep : ∀ id0, stored id0 (datastore s) → stored id0 (datastore s')).
    { intros id0 H0. destruct Hd as [->| ->]; [done|by apply stored_replace]. }
    rewrite Hn in Hit. apply elem_of_app in Hit as [Hit|Hit].
    + destruct (Hlive it Hit) as [Ht H0]. split; [done|by apply Hkeep].
    + destruct Hitems as [->| ->]; [by apply elem_of_nil in Hit|].
      apply list_elem_of_singleton in Hit as ->. cbn.
      split; [done|by apply Hkeep].
  - rewrite Hn in Hit. apply list_elem_of_filter in Hit as [Hne Hit].
    destruct (Hlive it Hit) as [Ht (r & Hr & Hkr)]. split; [done|].
    exists r. split; [|done]. rewrite Hd. apply list_elem_of_filter.
    split; [|done]. intros Hid. apply Hne.
    destruct (resource_key it) as [ty i]. cbn in *. congruence.
Qed.

Lemma rest_put_tail (self : AppContext) (entity : GatheringEntity) (id : Z)
    (d : gmap string PyVal) (s0 : State) :
  key entity = Some id →
  let t := (update_dict <~ dict_del d "key" ;;
            entity0 <~ dict_to_entity entity update_dict ;;
            GatheringEntity.put self entity0 ;;;
            ret (JsonResponse 200 (Msg "Saved.") PNone)) s0 in
  news (snd t) = news s0 ∧
  (datastore (snd t) = datastore s0 ∨
   ∃ e', key e' = Some id ∧ datastore (snd t) = db.replace id e' (datastore s0)).
Proof.
  intros Hk. cbv zeta. unfold dict_del.
  destruct (d !! "key") as [kv|]; [|by split; [|left]].
  rewrite bind_ret_l. cbn beta.
  destruct (dict_to_entity_run entity (delete "key" d) s0) as (r & Hr & Hkey).
  destruct r as [x|e'].
  - erewrite bind_inl by exact Hr. by split; [|left].
  - erewrite bind_inr by exact Hr.
    assert (Hk' : key e' = Some id) by (by rewrite (Hkey _ eq_refl)).
    erewrite bind_inr by (by apply entity_put_saved).
    cbn. split; [done|]. right. by exists e'.
Qed.

Lemma rest_put_feed_step (self : AppContext)
    (request : GatheringsItemRESTHandler.PutRequest) (s : State) :
  feed_step s (snd (GatheringsItemRESTHandler.put self request s)).
Proof.
  unfold GatheringsItemRESTHandler.put.
  destruct (GatheringsItemRESTHandler.put_xsrf_ok request); [|by left].
  destruct (GatheringsRights.can_edit self); [|by left]. cbn [negb].
  destruct (GatheringsItemRESTHandler.put_key request) as [|id]; [by left|].
  erewrite bind_inr by apply get_run.
  destruct (List.find (db.has_id id) (datastore s)) as [entity|] eqn:Hfind;
    [|by left].
  pose proof (find_has_id _ _ _ Hfind) as [Hk _].
  pose proof (stored_find _ _ _ Hfind) as Hst.
  right. left.
  destruct (is_draft entity && negb _).
  - erewrite bind_inr; cycle 1.
    { erewrite bind_inr by (by apply news_item_for_saved). reflexivity. }
    cbn beta.
    match goal with
    | |- context [snd (?t ?s0)] =>
        destruct (rest_put_tail self entity id
                    (GatheringsItemRESTHandler.put_update_dict request) s0 Hk)
          as [Hn Hd]
    end.
    cbn [news datastore] in Hn, Hd.
    destruct Hd as [Hd|(e' & Hk' & Hd)].
    + exists id, [mkNewsItem (mkResourceKey ResourceHandlerGathering.TYPE id)
                             "gatherings"], entity.
      split; [done|]. split; [done|]. split; [by right|].
      split; [exact Hn|]. by left.
    + exists id, [mkNewsItem (mkResourceKey ResourceHandlerGathering.TYPE id)
                             "gatherings"], e'.
      split; [done|]. split; [done|]. split; [by right|].
      split; [exact Hn|]. by right.
  - rewrite bind_ret_l. cbn beta.
    destruct (rest_put_tail self entity id
                (GatheringsItemRESTHandler.put_update_dict request) s Hk)
      as [Hn Hd].
    destruct Hd as [Hd|(e' & Hk' & Hd)].
    + exists id, [], entity.
      split; [done|]. split; [done|]. split; [by left|].
      split; [by rewrite app_nil_r|]. by left.
    + exists id, [], e'.
      split; [done|]. split; [done|]. split; [by left|].
      split; [by rewrite app_nil_r|]. by right.
Qed.

Lemma set_draft_status_feed_step (handler : AppContext) (k : db.ReqKey)
    (set_draft : string) (s : State) :
  feed_step s (snd (GatheringsItemRESTHandler.post_set_draft_status
                      handler k set_draft s)).
Proof.
  destruct (GatheringsRights.can_edit handler) eqn:Hedit; cycle 1.
  { unfold GatheringsItemRESTHandler.post_set_draft_status.
    rewrite Hedit. by left. }
  destruct k as [|id].
  { unfold GatheringsItemRESTHandler.post_set_draft_status.
    rewrite Hedit. by left. }
  destruct (List.find (db.has_id id) (datastore s)) as [entity|] eqn:Hfind;
    cycle 1.
  { unfold GatheringsItemRESTHandler.post_set_draft_status.
    rewrite Hedit. cbn [negb]. erewrite bind_inr by apply get_run.
    rewrite Hfind. by left. }
  pose proof (find_has_id _ _ _ Hfind) as [Hk _].
  pose proof (stored_find _ _ _ Hfind) as Hst.
  assert (Hrun : ∀ b : bool,
    feed_step s (snd (GatheringsItemRESTHandler.post_set_draft_status
                        handler (db.KId id) (if b then "1" else "0") s))).
  { intros b. rewrite (post_set_draft_status_run handler id entity b s) by done.
    cbn [snd]. right. left.
    exists id, (if is_draft entity && negb b
                then [mkNewsItem (mkResourceKey ResourceHandlerGathering.TYPE id)
                                 "gatherings"]
                else []), (set_is_draft b entity).
    split; [done|]. split; [done|].
    split; [destruct (is_draft entity && negb b); [by right|by left]|].
    split; [done|]. by right. }
  destruct (decide (set_draft = "1")) as [->|H1]; [apply (Hrun true)|].
  destruct (decide (set_draft = "0")) as [->|H0]; [apply (Hrun false)|].
  unfold GatheringsItemRESTHandler.post_set_draft_status.
  rewrite Hedit. cbn [negb]. erewrite bind_inr by apply get_run.
  rewrite Hfind. rewrite !bool_decide_eq_false_2 by done. by left.
Qed.

Lemma entity_delete_feed_step (entity : GatheringEntity) (id : Z) (s : State) :
  key entity = Some id →
  feed_step s (snd (GatheringEntity.delete entity s)).
Proof.
  intros Hk. rewrite (entity_delete_run _ id) by done.
  right. right. by exists id.
Qed.

Lemma run_call_feed_step (self : AppContext) (c : WriteCall) (s : State) :
  feed_step s (snd (run_call self c s)).
Proof.
  destruct c as [request|k xsrf_ok|k set_draft| |k]; cbn [run_call].
  - apply rest_put_feed_step.
  - unfold GatheringsItemRESTHandler.delete.
    destruct xsrf_ok; [|by left].
    destruct (GatheringsRights.can_delete self); [|by left]. cbn [negb].
    destruct k as [|id]; [by left|].
    erewrite bind_inr by apply get_run.
    destruct (List.find (db.has_id id) (datastore s)) as [entity|] eqn:Hfind;
      [|by left].
    pose proof (find_has_id _ _ _ Hfind) as [Hk _].
    erewrite bind_inr by (by apply entity_delete_run).
    cbn [snd]. right. right. by exists id.
  - apply set_draft_status_feed_step.
  - destruct (GatheringsRights.can_add self) eqn:Hadd.
    + rewrite post_add_gathering_raises by done. by left.
    + unfold GatheringsDashboardHandler.post_add_gathering.
      rewrite Hadd. by left.
  - unfold GatheringsDashboardHandler.post_delete_gathering.
    destruct (GatheringsRights.can_delete self); [|by left]. cbn [negb].
    destruct k as [|id]; [by left|].
    erewrite bind_inr by apply get_run.
    destruct (List.find (db.has_id id) (datastore s)) as [entity|] eqn:Hfind;
      [|by left].
    pose proof (find_has_id _ _ _ Hfind) as [Hk _].
    erewrite bind_inr by (by apply entity_delete_run).
    cbn [snd]. right. right. by exists id.
Qed.

(** X16: no news item outlives its gathering, whatever is called.  If
    every item of the feed names a stored gathering, it still does after
    any write handler has run, for any caller and any arguments, and
    after any sequence of such calls. *)
Theorem feed_names_stored_gatherings
    (calls : list (AppContext * WriteCall)) (s : State) :
  news_live s →
  news_live (foldl (λ st call, snd (run_call (fst call) (snd call) st)) s calls).
Proof.
  revert s. induction calls as [|[self c] calls IH]; intros s Hlive; [done|].
  cbn [foldl fst snd]. apply IH.
  eapply feed_step_live; [exact Hlive|]. apply run_call_feed_step.
Qed.

Lemma feed_names_stored_gatherings_witness :
  news_live announced_state ∧
  news_live
    (foldl (λ st call, snd (run_call (fst call) (snd call) st)) announced_state
       [(editor_ctx, CallSetDraftStatus (db.KId 1) "0");
        (editor_ctx, CallRestDelete (db.KId 2) true);
        (student_ctx, CallDeleteGathering (db.KId 1))]).
Proof.
  assert (Hlive : news_live announced_state).
  { intros it Hit. apply list_elem_of_singleton in Hit as ->.
    split; [done|]. exists g2. split; [|done].
    apply list_elem_of_In. cbn. tauto. }
  split; [done|].
  exact (feed_names_stored_gatherings _ announced_state Hlive).
Defined.

(** ** The default listing is never stale *)

Lemma coherent_ext (s s' : State) :
  datastore s' = datastore s → memcache s' = memcache s →
  cache_coherent s → cache_coherent s'.
Proof. intros Hd Hm [H1 H2]. split; rewrite ?Hd, Hm; done. Qed.

Lemma cache_step_coherent (s s' : State) :
  store_saved s → cache_coherent s → cache_step s s' →
  store_saved s' ∧ cache_coherent s'.
Proof.
  intros Hsaved Hcoh [[Hd Hm]|[Hm Hd]].
  - split; [unfold store_saved; by rewrite Hd|by eapply coherent_ext].
  - split; [|by eapply coherent_after_write].
    unfold store_saved in *.
    destruct Hd as [(id & e & Hk & ->)|(id & ->)].
    + unfold db.replace. case_match.
      * apply Forall_fmap. eapply Forall_impl; [exact Hsaved|].
        intros r Hr. cbn. case_match; [by rewrite Hk|done].
      * apply Forall_app. split; [done|]. constructor; [by rewrite Hk|done].
    + apply Forall_forall. intros r Hr.
      apply list_elem_of_filter in Hr as [_ Hr].
      by eapply Forall_forall in Hsaved.
Qed.

Lemma rest_put_tail_cache (self : AppContext) (entity : GatheringEntity)
    (id : Z) (d : gmap string PyVal) (s0 : State) :
  key entity = Some id →
  cache_step s0
    (snd ((update_dict <~ dict_del d "key" ;;
           entity0 <~ dict_to_entity entity update_dict ;;
           GatheringEntity.put self entity0 ;;;
           ret (JsonResponse 200 (Msg "Saved.") PNone)) s0)).
Proof.
  intros Hk. unfold dict_del.
  destruct (d !! "key") as [kv|]; [|by left].
  rewrite bind_ret_l. cbn beta.
  destruct (dict_to_entity_run entity (delete "key" d) s0) as (r & Hr & Hkey).
  destruct r as [x|e'].
  - erewrite bind_inl by exact Hr. by left.
  - erewrite bind_inr by exact Hr.
    assert (Hk' : key e' = Some id) by (by rewrite (Hkey _ eq_refl)).
    erewrite bind_inr by (by apply (entity_put_saved _ _ id)).
    cbn. right. split; [done|]. left. by exists id, e'.
Qed.

Lemma run_call_cache_step (self : AppContext) (c : WriteCall) (s : State) :
  cache_step s (snd (run_call self c s)).
Proof.
  destruct c as [request|k xsrf_ok|k set_draft| |k]; cbn [run_call].
  - unfold GatheringsItemRESTHandler.put.
    destruct (GatheringsItemRESTHandler.put_xsrf_ok request); [|by left].
    destruct (GatheringsRights.can_edit self); [|by left]. cbn [negb].
    destruct (GatheringsItemRESTHandler.put_key request) as [|id]; [by left|].
    erewrite bind_inr by apply get_run.
    destruct (List.find (db.has_id id) (datastore s)) as [entity|] eqn:Hfind;
      [|by left].
    pose proof (find_has_id _ _ _ Hfind) as [Hk _].
    destruct (is_draft entity && negb _).
    + erewrite bind_inr; cycle 1.
      { erewrite bind_inr by (by apply news_item_for_saved). reflexivity. }
      cbn beta.
      match goal with
      | |- context [snd (?t ?s0)] =>
          pose proof (rest_put_tail_cache self entity id
            (GatheringsItemRESTHandler.put_update_dict request) s0 Hk) as Hstep
      end.
      exact Hstep.
    + rewrite bind_ret_l. cbn beta.
      by apply (rest_put_tail_cache self entity id).
  - unfold GatheringsItemRESTHandler.delete.
    destruct xsrf_ok; [|by left].
    destruct (GatheringsRights.can_delete self); [|by left]. cbn [negb].
    destruct k as [|id]; [by left|].
    erewrite bind_inr by apply get_run.
    destruct (List.find (db.has_id id) (datastore s)) as [entity|] eqn:Hfind;
      [|by left].
    pose proof (find_has_id _ _ _ Hfind) as [Hk _].
    erewrite bind_inr by (by apply entity_delete_run).
    cbn [snd]. right. split; [done|]. right. by exists id.
  - destruct (GatheringsRights.can_edit self) eqn:Hedit; cycle 1.
    { unfold GatheringsItemRESTHandler.post_set_draft_status.
      rewrite Hedit. by left. }
    destruct k as [|id].
    { unfold GatheringsItemRESTHandler.post_set_draft_status.
      rewrite Hedit. by left. }
    destruct (List.find (db.has_id id) (datastore s)) as [entity|] eqn:Hfind;
      cycle 1.
    { unfold GatheringsItemRESTHandler.post_set_draft_status.
      rewrite Hedit. cbn [negb]. erewrite bind_inr by apply get_run.
      rewrite Hfind. by left. }
    pose proof (find_has_id _ _ _ Hfind) as [Hk _].
    assert (Hrun : ∀ b : bool,
      cache_step s (snd (GatheringsItemRESTHandler.post_set_draft_status
                           self (db.KId id) (if b then "1" else "0") s))).
    { intros b. rewrite (post_set_draft_status_run self id entity b s) by done.
      cbn [snd]. right. split; [done|]. left.
      by exists id, (set_is_draft b entity). }
    destruct (decide (set_draft = "1")) as [->|H1]; [apply (Hrun true)|].
    destruct (decide (set_draft = "0")) as [->|H0]; [apply (Hrun false)|].
    unfold GatheringsItemRESTHandler.post_set_draft_status.
    rewrite Hedit. cbn [negb]. erewrite bind_inr by apply get_run.
    rewrite Hfind. rewrite !bool_decide_eq_false_2 by done. by left.
  - destruct (GatheringsRights.can_add self) eqn:Hadd.
    + rewrite post_add_gathering_raises by done. by left.
    + unfold GatheringsDashboardHandler.post_add_gathering.
      rewrite Hadd. by left.
  - unfold GatheringsDashboardHandler.post_delete_gathering.
    destruct (GatheringsRights.can_delete self); [|by left]. cbn [negb].
    destruct k as [|id]; [by left|].
    erewrite bind_inr by apply get_run.
    destruct (List.find (db.has_id id) (datastore s)) as [entity|] eqn:Hfind;
      [|by left].
    pose proof (find_has_id _ _ _ Hfind) as [Hk _].
    erewrite bind_inr by (by apply entity_delete_run).
    cbn [snd]. right. split; [done|]. right. by exists id.
Qed.

Lemma serve_coherent (s : State) (r : AppContext * Request) :
  store_saved s → cache_coherent s →
  store_saved (serve s r) ∧ cache_coherent (serve s r).
Proof.
  intros Hsaved Hcoh.
  destruct r as [self [c|locale| |l]]; unfold serve; cbn [fst snd].
  - eapply cache_step_coherent; [done..|]. apply run_call_cache_step.
  - destruct (get_gatherings_coherent self locale s Hsaved Hcoh)
      as (res & s' & Hrun & Hstore & Hcoh' & _).
    rewrite Hrun. cbn [snd]. split; [|done].
    unfold store_saved. by rewrite Hstore.
  - unfold GatheringsStudentHandler.get_list.
    match goal with
    | |- context [GatheringEntity.get_gatherings self ?locale] =>
        destruct (get_gatherings_coherent self locale s Hsaved Hcoh)
          as (res & s' & Hrun & Hstore & Hcoh' & _)
    end.
    assert (Hstore' : store_saved s')
      by (unfold store_saved; by rewrite Hstore).
    destruct res as [x|items].
    + by erewrite bind_inl by exact Hrun.
    + erewrite bind_inr by exact Hrun. by unfold ret.
  - unfold notify_translations_changed. split; [|by apply coherent_purge].
    by rewrite purge_cache_run.
Qed.

(** X17: the default listing is never stale.  Start from a coherent world
    (a cold cache, say) and serve any requests in any order, by any
    callers: writes through the five handlers, listings in any locale,
    student pages, translation-changed signals.  The listing with no
    locale then still succeeds and is the descending sort of the store
    as it is at that moment. *)
Theorem default_listing_never_stale
    (ctx : AppContext) (requests : list (AppContext * Request)) (s : State) :
  store_saved s → cache_coherent s →
  let s' := foldl serve s requests in
  ∃ s'',
    GatheringEntity.get_gatherings ctx None s'
    = (inr (GatheringEntity.sort_desc (datastore s')), s'') ∧
    sorted_desc (GatheringEntity.sort_desc (datastore s')) ∧
    GatheringEntity.sort_desc (datastore s') ≡ₚ datastore s'.
Proof.
  intros Hsaved Hcoh. cbv zeta.
  assert (Hinv : store_saved (foldl serve s requests) ∧
                 cache_coherent (foldl serve s requests)).
  { revert s Hsaved Hcoh.
    induction requests as [|r requests IH]; intros s Hsaved Hcoh; [done|].
    cbn [foldl]. destruct (serve_coherent s r Hsaved Hcoh). by apply IH. }
  destruct Hinv as [Hsaved' Hcoh'].
  destruct (get_gatherings_coherent ctx None _ Hsaved' Hcoh')
    as (res & s'' & Hrun & _ & _ & Hdef & _).
  exists s''. rewrite Hrun, (Hdef eq_refl).
  split; [done|]. split; [apply sort_desc_sorted|apply sort_desc_perm].
Qed.

Lemma default_listing_never_stale_witness :
  store_saved cold_state ∧ cache_coherent cold_state ∧
  fst (GatheringEntity.get_gatherings student_ctx None
         (foldl serve cold_state
            [(student_ctx, ReqStudentPage);
             (editor_ctx, ReqWrite (CallSetDraftStatus (db.KId 1) "0"));
             (editor_ctx, ReqWrite (CallRestDelete (db.KId 2) true))]))
  = inr [set_is_draft false g1; g3].
Proof.
  assert (Hsaved : store_saved cold_state)
    by (repeat constructor; by eexists).
  assert (Hcoh : cache_coherent cold_state) by apply coherent_cold.
  split; [done|]. split; [done|].
  destruct (default_listing_never_stale student_ctx
              [(student_ctx, ReqStudentPage);
               (editor_ctx, ReqWrite (CallSetDraftStatus (db.KId 1) "0"));
               (editor_ctx, ReqWrite (CallRestDelete (db.KId 2) true))]
              cold_state Hsaved Hcoh) as (s'' & Hrun & _).
  rewrite Hrun. reflexivity.
Defined.
